(** * MemLeakTracker: the tracking engine of [MemLeakTracker.cpp]

    A shallow embedding of the leak tracker (namespace [LeakTracker] and the
    global [operator new] / [operator delete] replacements) together with the
    properties its specification states about it.

    The model is that of the configuration the file builds by default when
    [_DEBUG] is defined: [ENABLE_MEMORY_LEAK_TRACKING] and
    [ENABLE_STACK_TRACE] both set.

    Conventions.
    - [void*] and [size_t] values are binary naturals ([N]); the null pointer
      is [0]; arithmetic on [size_t] wraps modulo [2^64] (the [_WIN64] build).
    - The debug output is the list of the strings handed to
      [OutputDebugString], oldest first.
    - What the file takes from outside (the C heap, the symbol engine, the
      C runtime's rendering of [%p], the storage traffic and the iteration
      order of [std::unordered_map]) is gathered in the class [Platform].
    - The body of every [MemTracker] method runs under [Lock cs( critsec )];
      a call is therefore modelled as one atomic transition of the process
      state, and [EnterCriticalSection] decides whether the calling thread
      may proceed. *)

From Stdlib Require Import NArith ZArith Ascii String DecimalString.
From stdpp Require Import gmap strings list fin_maps.

#[local] Set Warnings "-clear-no-such-hyp".

(** ** Machine values *)

Abbreviation ptr := N.

Definition NULL : ptr := 0%N.

(** [size_t] on the 64-bit target. *)
Definition SIZE_BITS : N := 64.
Definition size_t_wrap (n : N) : N := (n mod 2 ^ SIZE_BITS)%N.

(** ** Config *)

Definition STACK_TRACE_DEPTH : nat := 10.

(** [STACK_OFFSET] of the [_DEBUG] configuration, the one in which the
    default settings compile the tracker at all. *)
Definition STACK_OFFSET : nat := 4.

(** ** Text *)

Definition LF : string := String (ascii_of_N 10) EmptyString.
Definition TAB : string := String (ascii_of_N 9) EmptyString.

(** [%zu] *)
Definition fmt_zu (n : N) : string := NilZero.string_of_uint (N.to_uint n).

(** [%d] applied to a [DWORD]: the 32 bits are read as a signed [int]. *)
Definition as_int (n : N) : Z :=
  let m := (Z.of_N n mod 2 ^ 32)%Z in
  if (m <? 2 ^ 31)%Z then m else (m - 2 ^ 32)%Z.

Definition fmt_d (n : N) : string := NilZero.string_of_int (Z.to_int (as_int n)).

(** [_sntprintf_s( buffer, count, ... )]: at most [count] characters of the
    formatted text reach the buffer.  (The [\0] closing each format string
    ends the format and prints nothing.) *)
Definition sntprintf_s (count : nat) (formatted : string) : string :=
  String.substring 0 count formatted.

(** ** Outcomes of a call

    A call either completes, or its thread waits for ever at
    [EnterCriticalSection], or the model's recursion budget is exhausted. *)

Inductive outcome (A : Type) : Type :=
  | Done (a : A)
  | Blocked
  | OutOfFuel.

Arguments Done {A} a.
Arguments Blocked {A}.
Arguments OutOfFuel {A}.

#[global] Instance outcome_ret : MRet outcome := @Done.
#[global] Instance outcome_bind : MBind outcome := λ A B f m,
  match m with
  | Done a => f a
  | Blocked => Blocked
  | OutOfFuel => OutOfFuel
  end.
#[global] Instance outcome_fmap : FMap outcome := λ A B f m,
  match m with
  | Done a => Done (f a)
  | Blocked => Blocked
  | OutOfFuel => OutOfFuel
  end.

(** ** Callers

    What a call inherits from the thread that makes it: the thread's identity
    and the return addresses on its stack, innermost first, as the stack
    walker sees them. *)

Record Caller : Type := { thread : nat; frames : list ptr }.

(** ** class StackTracker (data) *)

Module StackTracker.
Record t : Type := { stack : list ptr }.
End StackTracker.

(** [RtlCaptureStackBackTrace( FramesToSkip, FramesToCapture, BackTrace, NULL )] *)
Definition RtlCaptureStackBackTrace (FramesToSkip FramesToCapture : nat)
    (c : Caller) : list ptr :=
  take FramesToCapture (drop FramesToSkip (frames c)).

Definition StackTracker_ctor (c : Caller) : StackTracker.t :=
  let zeroed := replicate STACK_TRACE_DEPTH NULL in
  let captured := RtlCaptureStackBackTrace STACK_OFFSET STACK_TRACE_DEPTH c in
  {| StackTracker.stack := captured ++ drop (length captured) zeroed |}.

(** ** class Mutex, class Lock

    A Windows [CRITICAL_SECTION]: owned by at most one thread, which may enter
    it again; every other thread waits. *)

Module Mutex.
Record t : Type := { owner : option nat; recursion : nat }.
End Mutex.

Definition Mutex_ctor : Mutex.t := {| Mutex.owner := None; Mutex.recursion := 0 |}.

Definition EnterCriticalSection (c : Caller) (m : Mutex.t) : outcome Mutex.t :=
  match Mutex.owner m with
  | None => Done {| Mutex.owner := Some (thread c); Mutex.recursion := 1 |}
  | Some o =>
      if decide (o = thread c)
      then Done {| Mutex.owner := Some o; Mutex.recursion := S (Mutex.recursion m) |}
      else Blocked
  end.

Definition LeaveCriticalSection (m : Mutex.t) : Mutex.t :=
  match Mutex.recursion m with
  | S (S n) => {| Mutex.owner := Mutex.owner m; Mutex.recursion := S n |}
  | _ => {| Mutex.owner := None; Mutex.recursion := 0 |}
  end.

(** ** class AllocationInfo *)

Module AllocationInfo.
Record t : Type := { size : N; stack : StackTracker.t }.
End AllocationInfo.

Definition AllocationInfo_ctor (c : Caller) (size : N) : AllocationInfo.t :=
  {| AllocationInfo.size := size; AllocationInfo.stack := StackTracker_ctor c |}.

(** ** What the file links against *)

(** A request the container's allocator makes for its own storage. *)
Inductive StorageOp : Type :=
  | Allocate (bytes : N)
  | Release (block : ptr).

Class Platform : Type := {
  (** the C heap: [malloc] and [free] *)
  Heap : Type;
  malloc : N → Heap → ptr * Heap;
  free : ptr → Heap → Heap;
  (** [SymGetLineFromAddr]/[SymGetLineFromAddr64]: file name and line number
      of an address, when the symbol engine finds them *)
  SymGetLineFromAddr : ptr → option (string * N);
  (** the C runtime's rendering of [%p] *)
  fmt_p : ptr → string;
  (** the storage [std::unordered_map] asks [::operator new] for, and hands
      back to [::operator delete], while it inserts or erases a key *)
  insert_storage : gmap N AllocationInfo.t → ptr → list StorageOp;
  erase_storage : gmap N AllocationInfo.t → ptr → list StorageOp;
  (** the order in which a range-[for] visits the container *)
  iteration : gmap N AllocationInfo.t → list (ptr * AllocationInfo.t);
  iteration_perm : ∀ m, iteration m ≡ₚ map_to_list m
}.

(** ** class MemTracker (data) and the process state *)

Module MemTracker.
Record t : Type := {
  critsec : Mutex.t;
  paused : bool;
  memTrackerPool : gmap N AllocationInfo.t
}.
End MemTracker.

Record Process `{Platform} : Type := {
  memTracker : MemTracker.t;
  heap : Heap;
  debug_output : list string;
  dbgInitialized : bool
}.

Section Tracker.
Context `{Platform}.

Definition paused (st : Process) : bool := MemTracker.paused (memTracker st).
Definition memTrackerPool (st : Process) : gmap N AllocationInfo.t :=
  MemTracker.memTrackerPool (memTracker st).
Definition critsec (st : Process) : Mutex.t := MemTracker.critsec (memTracker st).

Definition set_paused (b : bool) (st : Process) : Process :=
  {| memTracker := {| MemTracker.critsec := critsec st;
                      MemTracker.paused := b;
                      MemTracker.memTrackerPool := memTrackerPool st |};
     heap := heap st;
     debug_output := debug_output st;
     dbgInitialized := dbgInitialized st |}.

Definition set_memTrackerPool (m : gmap N AllocationInfo.t) (st : Process) : Process :=
  {| memTracker := {| MemTracker.critsec := critsec st;
                      MemTracker.paused := paused st;
                      MemTracker.memTrackerPool := m |};
     heap := heap st;
     debug_output := debug_output st;
     dbgInitialized := dbgInitialized st |}.

Definition set_critsec (m : Mutex.t) (st : Process) : Process :=
  {| memTracker := {| MemTracker.critsec := m;
                      MemTracker.paused := paused st;
                      MemTracker.memTrackerPool := memTrackerPool st |};
     heap := heap st;
     debug_output := debug_output st;
     dbgInitialized := dbgInitialized st |}.

Definition set_heap (h : Heap) (st : Process) : Process :=
  {| memTracker := memTracker st;
     heap := h;
     debug_output := debug_output st;
     dbgInitialized := dbgInitialized st |}.

Definition set_dbgInitialized (b : bool) (st : Process) : Process :=
  {| memTracker := memTracker st;
     heap := heap st;
     debug_output := debug_output st;
     dbgInitialized := b |}.

Definition OutputDebugString (text : string) (st : Process) : Process :=
  {| memTracker := memTracker st;
     heap := heap st;
     debug_output := debug_output st ++ [text];
     dbgInitialized := dbgInitialized st |}.

(** *** StackTracker::InitializeSym, StackTracker::DumpToDebugOutput *)

Definition InitializeSym (st : Process) : Process :=
  if negb (dbgInitialized st) then set_dbgInitialized true st else st.

(** The text of one iteration of the loop, for a frame [a] that is set. *)
Definition frame_text (a : ptr) : string :=
  match SymGetLineFromAddr a with
  | Some (FileName, LineNumber) =>
      sntprintf_s 1023
        (TAB +:+ TAB +:+ FileName +:+ " (" +:+ fmt_d LineNumber +:+ ")" +:+ LF)
  | None =>
      sntprintf_s 1023
        (TAB +:+ TAB +:+ "Unresolved address: " +:+ fmt_p a +:+ LF)
  end.

Definition DumpToDebugOutput (s : StackTracker.t) (st : Process) : Process :=
  let st := InitializeSym st in
  let st :=
    foldl (λ st x,
             let a := nth x (StackTracker.stack s) NULL in
             if negb (a =? NULL)%N then OutputDebugString (frame_text a) st else st)
          st (seq 0 STACK_TRACE_DEPTH) in
  OutputDebugString LF st.

(** *** Lock *)

Definition Lock_ctor (c : Caller) (st : Process) : outcome Process :=
  m ← EnterCriticalSection c (critsec st);
  mret (set_critsec m st).

Definition Lock_dtor (st : Process) : Process :=
  set_critsec (LeaveCriticalSection (critsec st)) st.

(** *** MemTracker::MemTracker *)

Definition MemTracker_ctor : MemTracker.t :=
  {| MemTracker.critsec := Mutex_ctor;
     MemTracker.paused := false;
     MemTracker.memTrackerPool := ∅ |}.

(** The process once [memTracker] is constructed, before anything else ran. *)
Definition boot (h : Heap) : Process :=
  {| memTracker := MemTracker_ctor;
     heap := h;
     debug_output := [];
     dbgInitialized := false |}.

End Tracker.

(** ** The registry: MemTracker's methods

    [std::unordered_map] obtains and returns its nodes and bucket arrays
    through the global [::operator new] and [::operator delete], that is,
    through the very hooks defined at the end of the file.  The methods are
    therefore written against the two operators they link to. *)

Section Registry.
Context `{Platform}.
Variable global_new : Caller → N → Process → outcome (ptr * Process).
Variable global_delete : Caller → ptr → Process → outcome Process.

(** The container's allocator at work. *)
Definition container_storage (c : Caller) (ops : list StorageOp) (st : Process)
    : outcome Process :=
  foldl (λ acc op,
           st ← acc;
           match op with
           | Allocate bytes => r ← global_new c bytes st; mret (snd r)
           | Release block => global_delete c block st
           end)
        (mret st) ops.

(** [memTrackerPool.insert_or_assign( p, info )] *)
Definition insert_or_assign (c : Caller) (p : ptr) (info : AllocationInfo.t)
    (st : Process) : outcome Process :=
  st ← container_storage c (insert_storage (memTrackerPool st) p) st;
  mret (set_memTrackerPool (<[p := info]> (memTrackerPool st)) st).

(** [memTrackerPool.erase( p )], with the number of elements removed *)
Definition erase (c : Caller) (p : ptr) (st : Process) : outcome (N * Process) :=
  st ← container_storage c (erase_storage (memTrackerPool st) p) st;
  let erased := match memTrackerPool st !! p with Some _ => 1%N | None => 0%N end in
  mret (erased, set_memTrackerPool (delete p (memTrackerPool st)) st).

Definition AddPointer (c : Caller) (p : ptr) (size : N) (st : Process)
    : outcome Process :=
  st ← Lock_ctor c st;
  st ← (if negb (paused st) && negb (p =? NULL)%N then
          let st := set_paused true st in
          st ← insert_or_assign c p (AllocationInfo_ctor c size) st;
          mret (set_paused false st)
        else mret st);
  mret (Lock_dtor st).

Definition untracked_free_message : string :=
  "**** ERROR: Trying to delete non logged, possibly already freed memory block!" +:+ LF.

Definition RemovePointer (c : Caller) (p : ptr) (st : Process) : outcome Process :=
  st ← Lock_ctor c st;
  st ← (if negb (paused st) && negb (p =? NULL)%N then
          let st := set_paused true st in
          r ← erase c p st;
          let erased := fst r in
          let st := snd r in
          let st :=
            if (erased =? 0)%N then
              let st := OutputDebugString untracked_free_message st in
              let s := StackTracker_ctor c in
              DumpToDebugOutput s st
            else st in
          mret (set_paused false st)
        else mret st);
  mret (Lock_dtor st).

Definition Pause (c : Caller) (st : Process) : outcome Process :=
  st ← Lock_ctor c st;
  let st := set_paused true st in
  mret (Lock_dtor st).

Definition Resume (c : Caller) (st : Process) : outcome Process :=
  st ← Lock_ctor c st;
  let st := set_paused false st in
  mret (Lock_dtor st).

End Registry.

(** *** MemTracker::~MemTracker *)

Section Report.
Context `{Platform}.

Definition memleaks_header : string :=
  LF +:+ "--- Memleaks start here ---" +:+ LF +:+ LF.

Definition no_memleaks_banner : string :=
  "**********************************************************" +:+ LF +:+
  TAB +:+ TAB +:+ TAB +:+ TAB +:+ TAB +:+ "No memleaks found." +:+ LF +:+
  "**********************************************************" +:+ LF +:+ LF.

Definition leak_text (size : N) : string :=
  sntprintf_s 1023 ("Leak: " +:+ fmt_zu size +:+ " bytes" +:+ LF).

Definition total_text (totalLeaked : N) : string :=
  sntprintf_s 1023 (TAB +:+ "Total bytes leaked: " +:+ fmt_zu totalLeaked +:+ LF +:+ LF).

Definition MemTracker_dtor (st : Process) : Process :=
  let st := set_paused true st in
  if negb (size (memTrackerPool st) =? 0) then
    let st := OutputDebugString memleaks_header st in
    let totalLeaked := 0%N in
    let '(st, totalLeaked) :=
      foldl (λ '(st, totalLeaked) entry,
               let st := OutputDebugString (leak_text (AllocationInfo.size (snd entry))) st in
               let st := DumpToDebugOutput (AllocationInfo.stack (snd entry)) st in
               (st, size_t_wrap (totalLeaked + AllocationInfo.size (snd entry))))
            (st, totalLeaked) (iteration (memTrackerPool st)) in
    OutputDebugString (total_text totalLeaked) st
  else
    OutputDebugString no_memleaks_banner st.

End Report.

(** ** The global operators

    The two operators the container itself calls are defined by recursion on
    a call-depth budget; the remaining six have the same bodies. *)

Section Operators.
Context `{Platform}.

Fixpoint operator_new (fuel : nat) (c : Caller) (size : N) (st : Process)
    : outcome (ptr * Process) :=
  match fuel with
  | O => OutOfFuel
  | S fuel =>
      let '(p, h) := malloc size (heap st) in
      let st := set_heap h st in
      st ← AddPointer (operator_new fuel) (operator_delete fuel) c p size st;
      mret (p, st)
  end
with operator_delete (fuel : nat) (c : Caller) (pointer : ptr) (st : Process)
    : outcome Process :=
  match fuel with
  | O => OutOfFuel
  | S fuel =>
      st ← RemovePointer (operator_new fuel) (operator_delete fuel) c pointer st;
      mret (set_heap (free pointer (heap st)) st)
  end.

(** The registry as the rest of the program reaches it. *)
Definition memTracker_AddPointer (fuel : nat) :=
  AddPointer (operator_new fuel) (operator_delete fuel).
Definition memTracker_RemovePointer (fuel : nat) :=
  RemovePointer (operator_new fuel) (operator_delete fuel).

Definition operator_new_array (fuel : nat) (c : Caller) (size : N) (st : Process)
    : outcome (ptr * Process) :=
  match fuel with
  | O => OutOfFuel
  | S fuel =>
      let '(p, h) := malloc size (heap st) in
      let st := set_heap h st in
      st ← memTracker_AddPointer fuel c p size st;
      mret (p, st)
  end.

Definition operator_new_file_line (fuel : nat) (c : Caller) (size : N)
    (file : string) (line : Z) (st : Process) : outcome (ptr * Process) :=
  match fuel with
  | O => OutOfFuel
  | S fuel =>
      let '(p, h) := malloc size (heap st) in
      let st := set_heap h st in
      st ← memTracker_AddPointer fuel c p size st;
      mret (p, st)
  end.

Definition operator_new_array_file_line (fuel : nat) (c : Caller) (size : N)
    (file : string) (line : Z) (st : Process) : outcome (ptr * Process) :=
  match fuel with
  | O => OutOfFuel
  | S fuel =>
      let '(p, h) := malloc size (heap st) in
      let st := set_heap h st in
      st ← memTracker_AddPointer fuel c p size st;
      mret (p, st)
  end.

Definition operator_delete_array (fuel : nat) (c : Caller) (pointer : ptr)
    (st : Process) : outcome Process :=
  match fuel with
  | O => OutOfFuel
  | S fuel =>
      st ← memTracker_RemovePointer fuel c pointer st;
      mret (set_heap (free pointer (heap st)) st)
  end.

Definition operator_delete_file_line (fuel : nat) (c : Caller) (pointer : ptr)
    (file : string) (line : Z) (st : Process) : outcome Process :=
  match fuel with
  | O => OutOfFuel
  | S fuel =>
      st ← memTracker_RemovePointer fuel c pointer st;
      mret (set_heap (free pointer (heap st)) st)
  end.

Definition operator_delete_array_file_line (fuel : nat) (c : Caller) (pointer : ptr)
    (file : string) (line : Z) (st : Process) : outcome Process :=
  match fuel with
  | O => OutOfFuel
  | S fuel =>
      st ← memTracker_RemovePointer fuel c pointer st;
      mret (set_heap (free pointer (heap st)) st)
  end.

End Operators.

(** ** Programs: sequences of calls into the tracker *)

(** The four forms of [new] and of [delete]. *)
Inductive Form : Type :=
  | Scalar
  | Array
  | ScalarAt (file : string) (line : Z)
  | ArrayAt (file : string) (line : Z).

Inductive Event : Type :=
  | CallNew (form : Form) (c : Caller) (size : N)
  | CallDelete (form : Form) (c : Caller) (pointer : ptr)
  | CallPause (c : Caller)
  | CallResume (c : Caller).

(** What the program sees of the entry points: the address an allocation
    returned, the address a deallocation was given. *)
Inductive Obs : Type :=
  | Returned (p : ptr)
  | Passed (p : ptr).

#[global] Instance Obs_eq_dec : EqDecision Obs.
Proof. solve_decision. Defined.

Section Programs.
Context `{Platform}.

Definition call_new (fuel : nat) (form : Form) (c : Caller) (size : N)
    (st : Process) : outcome (ptr * Process) :=
  match form with
  | Scalar => operator_new fuel c size st
  | Array => operator_new_array fuel c size st
  | ScalarAt file line => operator_new_file_line fuel c size file line st
  | ArrayAt file line => operator_new_array_file_line fuel c size file line st
  end.

Definition call_delete (fuel : nat) (form : Form) (c : Caller) (pointer : ptr)
    (st : Process) : outcome Process :=
  match form with
  | Scalar => operator_delete fuel c pointer st
  | Array => operator_delete_array fuel c pointer st
  | ScalarAt file line => operator_delete_file_line fuel c pointer file line st
  | ArrayAt file line => operator_delete_array_file_line fuel c pointer file line st
  end.

Definition exec (fuel : nat) (ev : Event) (st : Process)
    : outcome (Process * list Obs) :=
  match ev with
  | CallNew form c size =>
      r ← call_new fuel form c size st; mret (snd r, [Returned (fst r)])
  | CallDelete form c pointer =>
      st ← call_delete fuel form c pointer st; mret (st, [Passed pointer])
  | CallPause c => st ← Pause c st; mret (st, [])
  | CallResume c => st ← Resume c st; mret (st, [])
  end.

Fixpoint run (fuel : nat) (evs : list Event) (st : Process)
    : outcome (Process * list Obs) :=
  match evs with
  | [] => mret (st, [])
  | ev :: evs =>
      r ← exec fuel ev st;
      r' ← run fuel evs (fst r);
      mret (fst r', snd r ++ snd r')
  end.

(** The observations of a run; none when the run does not complete. *)
Definition observed (o : outcome (Process * list Obs)) : list Obs :=
  match o with
  | Done r => snd r
  | _ => []
  end.

End Programs.

(** ** The specification's vocabulary *)

(** Tracking is never paused by the program. *)
Definition never_paused (evs : list Event) : bool :=
  forallb (λ ev, match ev with CallPause _ => false | _ => true end) evs.

(** Tracking is not resumed by the program. *)
Definition never_resumed (evs : list Event) : bool :=
  forallb (λ ev, match ev with CallResume _ => false | _ => true end) evs.

(** The address is handed to a deallocation later on. *)
Definition freed_later (p : ptr) (rest : list Obs) : bool :=
  bool_decide (Passed p ∈ rest).

(** The addresses returned by an allocation and not, since then, passed to a
    deallocation. *)
Fixpoint live (log : list Obs) : gset N :=
  match log with
  | [] => ∅
  | Returned p :: rest => if freed_later p rest then live rest else {[p]} ∪ live rest
  | Passed _ :: rest => live rest
  end.

(** Every address an allocation returned is passed to a deallocation
    afterwards: the calls come in matching pairs. *)
Fixpoint all_matched (log : list Obs) : bool :=
  match log with
  | [] => true
  | Returned p :: rest => freed_later p rest && all_matched rest
  | Passed _ :: rest => all_matched rest
  end.

(** The allocator never failed: no allocation returned the null pointer. *)
Definition never_null (log : list Obs) : bool :=
  bool_decide (Returned NULL ∉ log).

(** The number of line ends in a text. *)
Fixpoint line_ends (text : string) : nat :=
  match text with
  | EmptyString => 0
  | String ch rest =>
      if Ascii.eqb ch (ascii_of_N 10) then S (line_ends rest) else line_ends rest
  end.

(** The frames a [StackTracker] holds: the entries of its array that are set. *)
Definition captured_frames (s : StackTracker.t) : list ptr :=
  filter (λ a, a ≠ NULL)
         (map (λ x, nth x (StackTracker.stack s) NULL) (seq 0 STACK_TRACE_DEPTH)).

(** The sum of the sizes recorded in a registry. *)
Definition leaked_bytes (pool : gmap N AllocationInfo.t) : N :=
  map_fold (λ _ info total, (AllocationInfo.size info + total)%N) 0%N pool.

Section ReportText.
Context `{Platform}.

(** The text a stack dump adds to the debug output: one line per captured
    frame, resolved or raw, and an empty line. *)
Definition stack_lines (s : StackTracker.t) : list string :=
  map frame_text (captured_frames s) ++ [LF].

(** The part of the report that belongs to one record. *)
Definition leak_block (info : AllocationInfo.t) : list string :=
  leak_text (AllocationInfo.size info) :: stack_lines (AllocationInfo.stack info).

(** The report of a registry, in the order the container is visited. *)
Definition leak_report (pool : gmap N AllocationInfo.t) : list string :=
  if decide (pool = ∅) then [no_memleaks_banner]
  else
    [memleaks_header]
    ++ concat (map (λ entry, leak_block (snd entry)) (iteration pool))
    ++ [total_text (leaked_bytes pool)].

(** Following the specification: the report text of its External
    Interfaces section, taken to the letter (eight blanks before a stack
    line and before the total, [No memleaks found.] alone on its line). *)
Definition spec_indent : string := "        ".

Definition spec_frame_line (a : ptr) : string :=
  match SymGetLineFromAddr a with
  | Some (file, line) => spec_indent +:+ file +:+ " (" +:+ fmt_d line +:+ ")" +:+ LF
  | None => spec_indent +:+ "Unresolved address: " +:+ fmt_p a +:+ LF
  end.

Definition spec_leak_block (info : AllocationInfo.t) : string :=
  "Leak: " +:+ fmt_zu (AllocationInfo.size info) +:+ " bytes" +:+ LF
  +:+ String.concat "" (map spec_frame_line (captured_frames (AllocationInfo.stack info))).

Definition spec_report_text (pool : gmap N AllocationInfo.t) : string :=
  if decide (pool = ∅) then "No memleaks found." +:+ LF
  else
    "--- Memleaks start here ---" +:+ LF +:+ LF
    +:+ String.concat "" (map (λ entry, spec_leak_block (snd entry)) (iteration pool))
    +:+ spec_indent +:+ "Total bytes leaked: " +:+ fmt_zu (leaked_bytes pool) +:+ LF
    +:+ LF.

End ReportText.

(** ** A platform to run the model on

    A bump allocator that refuses requests of a tebibyte or more, a symbol
    engine that knows the even addresses, sixteen upper-case hexadecimal
    digits for [%p], a container that takes one node per new key, gives a
    block back per erased key, and visits its elements in the order of the
    map. *)

Definition hex_digit (d : N) : ascii :=
  nth (N.to_nat d) (list_ascii_of_string "0123456789ABCDEF") "0"%char.

Fixpoint hex_digits (n : nat) (a : N) : string :=
  match n with
  | O => EmptyString
  | S n => hex_digits n (a / 16)%N +:+ String (hex_digit (a mod 16)%N) EmptyString
  end.

Program Definition demo : Platform := {|
  Heap := N;
  malloc := λ size brk,
    if (size <? 2 ^ 40)%N then ((4096 + brk)%N, (brk + N.max size 1)%N)
    else (NULL, brk);
  free := λ _ brk, brk;
  SymGetLineFromAddr := λ a,
    if N.even a then Some ("main.cpp", (a / 2)%N) else None;
  fmt_p := hex_digits 16;
  insert_storage := λ m p,
    match m !! p with Some _ => [] | None => [Allocate 48] end;
  erase_storage := λ m p,
    match m !! p with Some _ => [Release (p + 1)%N] | None => [] end;
  iteration := map_to_list
|}.
Next Obligation. reflexivity. Qed.

Definition main_thread (frames : list ptr) : Caller :=
  {| thread := 1; frames := frames |}.

(** ** The calls as transitions

    What a call does to a process in which no thread is inside the tracker,
    written without the lock and the re-entrant calls; the lemmas below show
    that the operators compute exactly these states. *)

Section Transitions.
Context `{Platform}.

(** No thread is inside the tracker. *)
Definition idle (st : Process) : Prop := critsec st = Mutex_ctor.

(** The thread of [c] is inside [AddPointer] or [RemovePointer], past
    [paused = true]. *)
Definition suppressed_for (c : Caller) (st : Process) : Prop :=
  paused st = true
  ∧ Mutex.owner (critsec st) = Some (thread c)
  ∧ Mutex.recursion (critsec st) ≠ 0.

(** The heap once the container's requests went through [malloc] and
    [free]. *)
Definition storage_heap (ops : list StorageOp) (h : Heap) : Heap :=
  foldl (λ h op,
           match op with
           | Allocate bytes => snd (malloc bytes h)
           | Release block => free block h
           end)
        h ops.

(** The guard of [AddPointer] and [RemovePointer]. *)
Definition tracking (p : ptr) (st : Process) : bool :=
  negb (paused st) && negb (p =? NULL)%N.

Definition added (c : Caller) (p : ptr) (size : N) (st : Process) : Process :=
  if tracking p st then
    set_memTrackerPool
      (<[p := AllocationInfo_ctor c size]> (memTrackerPool st))
      (set_heap (storage_heap (insert_storage (memTrackerPool st) p) (heap st)) st)
  else st.

Definition removed (c : Caller) (p : ptr) (st : Process) : Process :=
  if tracking p st then
    let st1 :=
      set_heap (storage_heap (erase_storage (memTrackerPool st) p) (heap st)) st in
    match memTrackerPool st !! p with
    | Some _ => set_memTrackerPool (delete p (memTrackerPool st)) st1
    | None =>
        DumpToDebugOutput (StackTracker_ctor c)
          (OutputDebugString untracked_free_message st1)
    end
  else st.

Definition step (ev : Event) (st : Process) : Process * list Obs :=
  match ev with
  | CallNew _ c size =>
      let p := fst (malloc size (heap st)) in
      (added c p size (set_heap (snd (malloc size (heap st))) st), [Returned p])
  | CallDelete _ c pointer =>
      let st := removed c pointer st in
      (set_heap (free pointer (heap st)) st, [Passed pointer])
  | CallPause _ => (set_paused true st, [])
  | CallResume _ => (set_paused false st, [])
  end.

Fixpoint steps (evs : list Event) (st : Process) : Process * list Obs :=
  match evs with
  | [] => (st, [])
  | ev :: evs =>
      let r := step ev st in
      let r' := steps evs (fst r) in
      (fst r', snd r ++ snd r')
  end.

End Transitions.

(** The addresses passed to a deallocation. *)
Definition passed (log : list Obs) : gset N :=
  list_to_set (omap (λ o, match o with Passed p => Some p | Returned _ => None end) log).

(** The sizes of a list of records, summed. *)
Definition sum_sizes (entries : list (ptr * AllocationInfo.t)) : N :=
  foldr (λ entry total, (AllocationInfo.size (snd entry) + total)%N) 0%N entries.

(** Programs to run on it. *)

Definition site_a : Caller := main_thread [11; 12; 13; 14; 15; 16; 18]%N.
Definition site_b : Caller := {| thread := 2; frames := [21; 22; 23; 24; 25]%N |}.

(** Allocations and deallocations in the four forms, two threads, a block
    left allocated, a block freed twice and a stray [ResumeTracking]. *)
Definition mixed_program : list Event :=
  [ CallNew Scalar site_a 64;
    CallNew Array site_b 10;
    CallDelete (ArrayAt "main.cpp" 7) site_b 4096;
    CallResume site_a;
    CallNew (ScalarAt "main.cpp" 9) site_a 0;
    CallDelete Scalar site_a 4096;
    CallNew (ArrayAt "util.cpp" 3) site_b 20 ]%N.

(** Allocations each followed, sooner or later, by its deallocation. *)
Definition paired_program : list Event :=
  [ CallNew Scalar site_a 10;
    CallNew Array site_b 20;
    CallDelete Scalar site_b 4096;
    CallNew (ScalarAt "main.cpp" 9) site_a 30;
    CallDelete Array site_a 4154;
    CallDelete (ScalarAt "main.cpp" 12) site_a 4222 ]%N.

(** Sixty-four bytes allocated and never freed. *)
Definition one_leak : @Process demo :=
  fst (@steps demo [CallNew Scalar site_a 64%N] (@boot demo 0%N)).

(** The process at the point where [AddPointer], called by [site_a] on
    [one_leak], is about to insert: the lock taken, tracking suppressed. *)
Definition inside_add : @Process demo :=
  @set_paused demo true
    (@set_critsec demo {| Mutex.owner := Some (thread site_a); Mutex.recursion := 1 |}
       one_leak).

(** Calls made while tracking is paused. *)
Definition exempt_program : list Event :=
  [ CallNew Scalar site_a 100;
    CallDelete Array site_b 4096;
    CallPause site_b;
    CallDelete Scalar site_a 12345;
    CallNew (ArrayAt "lib.cpp" 1) site_b 0 ]%N.

(** ** Proof tools *)

(** Read the components of a process built by the setters. *)
Ltac proj :=
  cbv [paused critsec memTrackerPool idle
       set_paused set_heap set_critsec set_memTrackerPool set_dbgInitialized
       OutputDebugString Lock_dtor
       memTracker heap debug_output dbgInitialized
       MemTracker.paused MemTracker.critsec MemTracker.memTrackerPool] in *.

(** * The rest of the file: lifetime, lock discipline, text, accounting *)

(** ** Construction and destruction of [memTracker] *)

Section Lifetime.
Context `{Platform}.

(** [MemTracker memTracker;]: the members come to life in the order of their
    declaration, [critsec], then [paused = true], then [memTrackerPool],
    whose constructor may ask [::operator new] for [pool_storage]; the body
    of the constructor then clears [paused]. *)
Definition MemTracker_construct (fuel : nat) (c : Caller)
    (pool_storage : list StorageOp) (h : Heap) : outcome Process :=
  let st :=
    {| memTracker := {| MemTracker.critsec := Mutex_ctor;
                        MemTracker.paused := true;
                        MemTracker.memTrackerPool := ∅ |};
       heap := h;
       debug_output := [];
       dbgInitialized := false |} in
  st ← container_storage (operator_new fuel) (operator_delete fuel) c pool_storage st;
  let st := set_paused false st in
  mret st.

(** The end of [memTracker]: the body of [~MemTracker], then the members in
    reverse order; [memTrackerPool] hands [pool_storage] back to
    [::operator delete] while [critsec] is still there. *)
Definition MemTracker_destroy (fuel : nat) (c : Caller)
    (pool_storage : list StorageOp) (st : Process) : outcome Process :=
  let st := MemTracker_dtor st in
  st ← container_storage (operator_new fuel) (operator_delete fuel) c pool_storage st;
  mret (set_memTrackerPool ∅ st).

(** The calling thread may enter the tracker: the critical section is free,
    or the thread owns it already. *)
Definition enterable (c : Caller) (st : Process) : Prop :=
  critsec st = Mutex_ctor
  ∨ (Mutex.owner (critsec st) = Some (thread c) ∧ Mutex.recursion (critsec st) ≠ 0).


(** What an untracked free prints when [c] makes it. *)
Definition diagnostic (c : Caller) : list string :=
  untracked_free_message :: stack_lines (StackTracker_ctor c).

End Lifetime.

(** ** More vocabulary *)

(** The addresses returned by an allocation. *)
Definition returned (log : list Obs) : gset N :=
  list_to_set (omap (λ o, match o with Returned p => Some p | Passed _ => None end) log).

(** The flag after a program, from the flag before it: what the last
    [Pause] or [Resume] of the program assigned. *)
Definition last_flag (b : bool) (evs : list Event) : bool :=
  foldl (λ b ev,
           match ev with
           | CallPause _ => true
           | CallResume _ => false
           | _ => b
           end)
        b evs.

(** Every address given to a deallocation is null or was returned by an
    allocation and not freed since, [alive] being the addresses outstanding
    at the start. *)
Fixpoint proper_frees_from (alive : gset N) (log : list Obs) : bool :=
  match log with
  | [] => true
  | Returned p :: rest => proper_frees_from ({[p]} ∪ alive) rest
  | Passed p :: rest =>
      (bool_decide (p = NULL) || bool_decide (p ∈ alive))
      && proper_frees_from (alive ∖ {[p]}) rest
  end.

Definition proper_frees (log : list Obs) : bool := proper_frees_from ∅ log.

(** The deallocations of a program. *)
Definition deallocations (evs : list Event) : nat :=
  length (List.filter (λ ev, match ev with CallDelete _ _ _ => true | _ => false end) evs).

(** The program only allocates. *)
Definition only_allocations (evs : list Event) : bool :=
  forallb (λ ev, match ev with CallNew _ _ _ => true | _ => false end) evs.

(** The bytes a program asks for. *)
Definition requested (evs : list Event) : N :=
  foldr (λ ev total,
           match ev with
           | CallNew _ _ size => (size + total)%N
           | _ => total
           end)
        0%N evs.

(** No two observations are the same: of allocations alone, no address was
    returned twice. *)
Definition all_distinct (log : list Obs) : bool := bool_decide (NoDup log).

(** A line of the report that starts a record. *)
Definition is_leak_line (text : string) : bool := String.prefix "Leak: " text.

(** The size a registry records for an address, nothing when it has none. *)
Definition recorded_size (pool : gmap N AllocationInfo.t) (p : ptr) : N :=
  match pool !! p with
  | Some info => AllocationInfo.size info
  | None => 0%N
  end.

(** Every stack of the registry has the depth of the array. *)
Definition stacks_full (pool : gmap N AllocationInfo.t) : Prop :=
  map_Forall (λ _ info,
                length (StackTracker.stack (AllocationInfo.stack info)) = STACK_TRACE_DEPTH)
             pool.

Section DtorText.
Context `{Platform}.

(** What the destructor prints, the total reduced as [size_t] reduces it. *)
Definition dtor_text (pool : gmap N AllocationInfo.t) : list string :=
  if decide (pool = ∅) then [no_memleaks_banner]
  else [memleaks_header]
       ++ concat (map (λ entry, leak_block (snd entry)) (iteration pool))
       ++ [total_text (size_t_wrap (leaked_bytes pool))].

End DtorText.

(** More processes to run on. *)

(** [site_a] holds the lock twice over, tracking active. *)
Definition nested_lock : @Process demo :=
  @set_critsec demo {| Mutex.owner := Some (thread site_a); Mutex.recursion := 2 |} one_leak.

(** A caller with a shallow stack. *)
Definition site_c : Caller := {| thread := 3; frames := [31; 32; 33; 0; 0; 36; 0; 38]%N |}.

(** Two leaks, then the second freed under a pause and a stray free. *)
Definition busy_program : list Event :=
  [ CallNew Scalar site_a 64;
    CallNew Array site_b 10;
    CallPause site_a;
    CallDelete Scalar site_b 4208;
    CallNew Scalar site_c 5;
    CallResume site_b;
    CallDelete Array site_c 99;
    CallDelete Scalar site_a 0 ]%N.

(** Three threads allocate. *)
Definition allocating_program : list Event :=
  [ CallNew Scalar site_a 64;
    CallNew Array site_b 0;
    CallNew (ScalarAt "main.cpp" 2) site_c 1000;
    CallNew (ArrayAt "main.cpp" 3) site_a 8 ]%N.

(** * Properties *)

(** ** The lock *)

Lemma enter_leave_idle (c : Caller) :
  LeaveCriticalSection <$> EnterCriticalSection c Mutex_ctor = Done Mutex_ctor.
Proof. reflexivity. Qed.

Lemma enter_owned (c : Caller) (m : Mutex.t) :
  Mutex.owner m = Some (thread c) →
  EnterCriticalSection c m
  = Done {| Mutex.owner := Some (thread c); Mutex.recursion := S (Mutex.recursion m) |}.
Proof.
  intros Ho. unfold EnterCriticalSection. rewrite Ho.
  by rewrite decide_True.
Qed.

Lemma leave_enter_owned (c : Caller) (m : Mutex.t) :
  Mutex.owner m = Some (thread c) →
  Mutex.recursion m ≠ 0 →
  LeaveCriticalSection
    {| Mutex.owner := Some (thread c); Mutex.recursion := S (Mutex.recursion m) |} = m.
Proof.
  destruct m as [o [|r]]; simpl; intros -> Hr; [done|reflexivity].
Qed.

Lemma bind_Done {A B : Type} (a : A) (f : A → outcome B) : (Done a ≫= f) = f a.
Proof. reflexivity. Qed.

Section Basics.
Context `{Platform}.

(** Two processes with the same components are the same. *)
Lemma Process_eq (st st' : Process) :
  critsec st = critsec st' →
  paused st = paused st' →
  memTrackerPool st = memTrackerPool st' →
  heap st = heap st' →
  debug_output st = debug_output st' →
  dbgInitialized st = dbgInitialized st' →
  st = st'.
Proof.
  destruct st as [[cs pa pool] h out dbg], st' as [[cs' pa' pool'] h' out' dbg'].
  unfold critsec, paused, memTrackerPool; simpl. by intros -> -> -> -> -> ->.
Qed.

Lemma boot_idle (h : Heap) : idle (boot h).
Proof. reflexivity. Qed.

(** *** The stack dump *)

Lemma dump_loop_output (s : StackTracker.t) (xs : list nat) (st : Process) :
  let st' :=
    foldl (λ st x,
             let a := nth x (StackTracker.stack s) NULL in
             if negb (a =? NULL)%N then OutputDebugString (frame_text a) st else st)
          st xs in
  memTracker st' = memTracker st
  ∧ heap st' = heap st
  ∧ dbgInitialized st' = dbgInitialized st
  ∧ debug_output st'
    = debug_output st
      ++ map frame_text
           (filter (λ a, a ≠ NULL) (map (λ x, nth x (StackTracker.stack s) NULL) xs)).
Proof.
  cbv zeta.
  set (body := λ (st : Process) (x : nat),
         if negb (nth x (StackTracker.stack s) NULL =? NULL)%N
         then OutputDebugString (frame_text (nth x (StackTracker.stack s) NULL)) st
         else st).
  revert st. induction xs as [|x xs IH]; intros st.
  { simpl. by rewrite app_nil_r. }
  cbn [foldl map]. destruct (IH (body st x)) as (Hm & Hh & Hd & Ho).
  rewrite Hm, Hh, Hd, Ho. clear IH Hm Hh Hd Ho.
  rewrite filter_cons. unfold body.
  destruct (N.eqb_spec (nth x (StackTracker.stack s) NULL) NULL) as [Heq|Hne]; simpl.
  - rewrite decide_False by (intros Hc; by apply Hc). done.
  - rewrite decide_True by done. simpl. by rewrite <- app_assoc.
Qed.

Lemma InitializeSym_memTracker (st : Process) :
  memTracker (InitializeSym st) = memTracker st.
Proof. unfold InitializeSym. by destruct (dbgInitialized st). Qed.

Lemma InitializeSym_heap (st : Process) : heap (InitializeSym st) = heap st.
Proof. unfold InitializeSym. by destruct (dbgInitialized st). Qed.

Lemma InitializeSym_output (st : Process) :
  debug_output (InitializeSym st) = debug_output st.
Proof. unfold InitializeSym. by destruct (dbgInitialized st). Qed.

Lemma InitializeSym_dbgInitialized (st : Process) :
  dbgInitialized (InitializeSym st) = true.
Proof. unfold InitializeSym. by destruct (dbgInitialized st) eqn:E. Qed.

Lemma DumpToDebugOutput_memTracker (s : StackTracker.t) (st : Process) :
  memTracker (DumpToDebugOutput s st) = memTracker st.
Proof.
  destruct (dump_loop_output s (seq 0 STACK_TRACE_DEPTH) (InitializeSym st)) as (Hm & _).
  unfold DumpToDebugOutput. cbv zeta in *.
  change (memTracker (OutputDebugString ?t ?x)) with (memTracker x).
  by rewrite Hm, InitializeSym_memTracker.
Qed.

Lemma DumpToDebugOutput_heap (s : StackTracker.t) (st : Process) :
  heap (DumpToDebugOutput s st) = heap st.
Proof.
  destruct (dump_loop_output s (seq 0 STACK_TRACE_DEPTH) (InitializeSym st))
    as (_ & Hh & _).
  unfold DumpToDebugOutput. cbv zeta in *.
  change (heap (OutputDebugString ?t ?x)) with (heap x).
  by rewrite Hh, InitializeSym_heap.
Qed.

Lemma DumpToDebugOutput_dbgInitialized (s : StackTracker.t) (st : Process) :
  dbgInitialized (DumpToDebugOutput s st) = true.
Proof.
  destruct (dump_loop_output s (seq 0 STACK_TRACE_DEPTH) (InitializeSym st))
    as (_ & _ & Hd & _).
  unfold DumpToDebugOutput. cbv zeta in *.
  change (dbgInitialized (OutputDebugString ?t ?x)) with (dbgInitialized x).
  by rewrite Hd, InitializeSym_dbgInitialized.
Qed.

Lemma DumpToDebugOutput_output (s : StackTracker.t) (st : Process) :
  debug_output (DumpToDebugOutput s st) = debug_output st ++ stack_lines s.
Proof.
  destruct (dump_loop_output s (seq 0 STACK_TRACE_DEPTH) (InitializeSym st))
    as (_ & _ & _ & Ho).
  unfold DumpToDebugOutput. cbv zeta in *.
  change (debug_output (OutputDebugString ?t ?x)) with (debug_output x ++ [t]).
  rewrite Ho, InitializeSym_output.
  unfold stack_lines, captured_frames. by rewrite <- app_assoc.
Qed.

Lemma DumpToDebugOutput_eq (s : StackTracker.t) (st : Process) :
  DumpToDebugOutput s st
  = {| memTracker := memTracker st;
       heap := heap st;
       debug_output := debug_output st ++ stack_lines s;
       dbgInitialized := true |}.
Proof.
  pose proof (DumpToDebugOutput_memTracker s st) as Hm.
  pose proof (DumpToDebugOutput_heap s st) as Hh.
  pose proof (DumpToDebugOutput_output s st) as Ho.
  pose proof (DumpToDebugOutput_dbgInitialized s st) as Hd.
  destruct (DumpToDebugOutput s st) as [m h o d]. simpl in *. by subst.
Qed.

(** *** Calls made while tracking is suppressed *)

Lemma Lock_ctor_owned (c : Caller) (st : Process) :
  Mutex.owner (critsec st) = Some (thread c) →
  Lock_ctor c st
  = Done (set_critsec {| Mutex.owner := Some (thread c);
                         Mutex.recursion := S (Mutex.recursion (critsec st)) |} st).
Proof. intros Ho. unfold Lock_ctor. by rewrite (enter_owned _ _ Ho). Qed.

Lemma AddPointer_suppressed gn gd (c : Caller) (p : ptr) (size : N) (st : Process) :
  suppressed_for c st → AddPointer gn gd c p size st = Done st.
Proof.
  intros (Hp & Ho & Hr). unfold AddPointer.
  rewrite (Lock_ctor_owned _ _ Ho). simpl.
  replace (paused (set_critsec _ st)) with true by (by rewrite <- Hp).
  simpl. f_equal. unfold Lock_dtor.
  apply Process_eq; try reflexivity.
  unfold critsec at 1; simpl. by apply leave_enter_owned.
Qed.

Lemma RemovePointer_suppressed gn gd (c : Caller) (p : ptr) (st : Process) :
  suppressed_for c st → RemovePointer gn gd c p st = Done st.
Proof.
  intros (Hp & Ho & Hr). unfold RemovePointer.
  rewrite (Lock_ctor_owned _ _ Ho). simpl.
  replace (paused (set_critsec _ st)) with true by (by rewrite <- Hp).
  simpl. f_equal. unfold Lock_dtor.
  apply Process_eq; try reflexivity.
  unfold critsec at 1; simpl. by apply leave_enter_owned.
Qed.

Lemma operator_new_suppressed (fuel : nat) (c : Caller) (size : N) (st : Process) :
  suppressed_for c st →
  operator_new (S fuel) c size st
  = Done (fst (malloc size (heap st)), set_heap (snd (malloc size (heap st))) st).
Proof.
  intros Hs. simpl. destruct (malloc size (heap st)) as [p h]; simpl.
  rewrite AddPointer_suppressed; [done|]. exact Hs.
Qed.

Lemma operator_delete_suppressed (fuel : nat) (c : Caller) (pointer : ptr)
    (st : Process) :
  suppressed_for c st →
  operator_delete (S fuel) c pointer st = Done (set_heap (free pointer (heap st)) st).
Proof.
  intros Hs. simpl. by rewrite RemovePointer_suppressed.
Qed.

Lemma container_storage_suppressed (fuel : nat) (c : Caller) (ops : list StorageOp)
    (st : Process) :
  suppressed_for c st →
  container_storage (operator_new (S fuel)) (operator_delete (S fuel)) c ops st
  = Done (set_heap (storage_heap ops (heap st)) st).
Proof.
  unfold container_storage, storage_heap.
  revert st. induction ops as [|op ops IH] using rev_ind; intros st Hs.
  { simpl. f_equal. by destruct st. }
  rewrite !foldl_app. cbn [foldl]. rewrite (IH st Hs), bind_Done.
  assert (suppressed_for c (set_heap (foldl (λ h op,
           match op with
           | Allocate bytes => snd (malloc bytes h)
           | Release block => free block h
           end) (heap st) ops) st)) as Hs' by exact Hs.
  destruct op as [bytes|block].
  - rewrite (operator_new_suppressed _ _ _ _ Hs'). reflexivity.
  - rewrite (operator_delete_suppressed _ _ _ _ Hs'). reflexivity.
Qed.

End Basics.

(** ** The calls of an idle process *)

Section Calls.
Context `{Platform}.

Lemma Lock_ctor_idle (c : Caller) (st : Process) :
  idle st →
  Lock_ctor c st
  = Done (set_critsec {| Mutex.owner := Some (thread c); Mutex.recursion := 1 |} st).
Proof. intros Hi. unfold Lock_ctor. by rewrite Hi. Qed.

Lemma AddPointer_idle (fuel : nat) (c : Caller) (p : ptr) (size : N) (st : Process) :
  idle st →
  memTracker_AddPointer (S fuel) c p size st = Done (added c p size st).
Proof.
  intros Hi. unfold memTracker_AddPointer, AddPointer, added, tracking.
  rewrite (Lock_ctor_idle _ _ Hi), bind_Done.
  change (paused (set_critsec ?m st)) with (paused st).
  destruct (negb (paused st) && negb (p =? NULL)%N) eqn:Ht.
  - unfold insert_or_assign.
    rewrite container_storage_suppressed by (repeat split; done).
    rewrite !bind_Done. f_equal.
    apply andb_prop in Ht as [Hp _].
    destruct st as [[cs pa pool] h out dbg]. proj. subst cs.
    destruct pa; [done|reflexivity].
  - rewrite bind_Done. f_equal.
    destruct st as [[cs pa pool] h out dbg]. proj. by subst cs.
Qed.

Lemma RemovePointer_idle (fuel : nat) (c : Caller) (p : ptr) (st : Process) :
  idle st →
  memTracker_RemovePointer (S fuel) c p st = Done (removed c p st).
Proof.
  intros Hi. unfold memTracker_RemovePointer, RemovePointer, removed, tracking.
  rewrite (Lock_ctor_idle _ _ Hi), bind_Done.
  change (paused (set_critsec ?m st)) with (paused st).
  destruct (negb (paused st) && negb (p =? NULL)%N) eqn:Ht.
  - apply andb_prop in Ht as [Hp _].
    unfold erase.
    rewrite container_storage_suppressed by (repeat split; done).
    rewrite !bind_Done. cbv zeta. cbn [fst snd].
    change (memTrackerPool (set_heap ?h ?x)) with (memTrackerPool x).
    change (memTrackerPool (set_paused ?b ?x)) with (memTrackerPool x).
    change (memTrackerPool (set_critsec ?b ?x)) with (memTrackerPool x).
    destruct (memTrackerPool st !! p) as [info|] eqn:Hl; cbn [N.eqb]; f_equal.
    + destruct st as [[cs pa pool] h out dbg]. proj. subst cs.
      destruct pa; [done|reflexivity].
    + rewrite !DumpToDebugOutput_eq.
      destruct st as [[cs pa pool] h out dbg]. proj. subst cs.
      rewrite delete_id by done. destruct pa; [done|reflexivity].
  - rewrite bind_Done. f_equal.
    destruct st as [[cs pa pool] h out dbg]. proj. by subst cs.
Qed.

Lemma Pause_idle (c : Caller) (st : Process) :
  idle st → Pause c st = Done (set_paused true st).
Proof.
  intros Hi. unfold Pause. rewrite (Lock_ctor_idle _ _ Hi), bind_Done.
  cbv zeta. f_equal. destruct st as [[cs pa pool] h out dbg]. proj. by subst cs.
Qed.

Lemma Resume_idle (c : Caller) (st : Process) :
  idle st → Resume c st = Done (set_paused false st).
Proof.
  intros Hi. unfold Resume. rewrite (Lock_ctor_idle _ _ Hi), bind_Done.
  cbv zeta. f_equal. destruct st as [[cs pa pool] h out dbg]. proj. by subst cs.
Qed.

(** The eight operators are two. *)
Lemma call_new_operator_new (fuel : nat) (form : Form) (c : Caller) (size : N)
    (st : Process) :
  call_new fuel form c size st = operator_new fuel c size st.
Proof. destruct form, fuel; reflexivity. Qed.

Lemma call_delete_operator_delete (fuel : nat) (form : Form) (c : Caller)
    (pointer : ptr) (st : Process) :
  call_delete fuel form c pointer st = operator_delete fuel c pointer st.
Proof. destruct form, fuel; reflexivity. Qed.

Lemma operator_new_idle (fuel : nat) (c : Caller) (size : N) (st : Process) :
  idle st →
  operator_new (S (S fuel)) c size st
  = Done (fst (malloc size (heap st)),
          added c (fst (malloc size (heap st))) size
                (set_heap (snd (malloc size (heap st))) st)).
Proof.
  intros Hi.
  change (operator_new (S (S fuel)) c size st)
    with (let '(p, h) := malloc size (heap st) in
          st' ← memTracker_AddPointer (S fuel) c p size (set_heap h st);
          mret (p, st')).
  destruct (malloc size (heap st)) as [p h]. cbn [fst snd].
  rewrite AddPointer_idle by exact Hi. reflexivity.
Qed.

Lemma operator_delete_idle (fuel : nat) (c : Caller) (pointer : ptr) (st : Process) :
  idle st →
  operator_delete (S (S fuel)) c pointer st
  = Done (set_heap (free pointer (heap (removed c pointer st))) (removed c pointer st)).
Proof.
  intros Hi.
  change (operator_delete (S (S fuel)) c pointer st)
    with (st' ← memTracker_RemovePointer (S fuel) c pointer st;
          mret (set_heap (free pointer (heap st')) st')).
  rewrite RemovePointer_idle by exact Hi. reflexivity.
Qed.

(** *** What a call leaves in place *)

Lemma added_critsec c p size st : critsec (added c p size st) = critsec st.
Proof. unfold added. by destruct (tracking p st). Qed.

Lemma added_paused c p size st : paused (added c p size st) = paused st.
Proof. unfold added. by destruct (tracking p st). Qed.

Lemma added_output c p size st : debug_output (added c p size st) = debug_output st.
Proof. unfold added. by destruct (tracking p st). Qed.

Lemma added_pool c p size st :
  memTrackerPool (added c p size st)
  = if tracking p st
    then <[p := AllocationInfo_ctor c size]> (memTrackerPool st)
    else memTrackerPool st.
Proof. unfold added. by destruct (tracking p st). Qed.

Lemma removed_critsec c p st : critsec (removed c p st) = critsec st.
Proof.
  unfold removed. destruct (tracking p st); [|done].
  cbv zeta. destruct (memTrackerPool st !! p); [done|].
  by rewrite DumpToDebugOutput_eq.
Qed.

Lemma removed_paused c p st : paused (removed c p st) = paused st.
Proof.
  unfold removed. destruct (tracking p st); [|done].
  cbv zeta. destruct (memTrackerPool st !! p); [done|].
  by rewrite DumpToDebugOutput_eq.
Qed.

Lemma removed_pool c p st :
  memTrackerPool (removed c p st)
  = if tracking p st then delete p (memTrackerPool st) else memTrackerPool st.
Proof.
  unfold removed. destruct (tracking p st); [|done].
  cbv zeta. destruct (memTrackerPool st !! p) eqn:Hl; [done|].
  rewrite DumpToDebugOutput_eq. rewrite delete_id by done. reflexivity.
Qed.

Lemma removed_output c p st :
  debug_output (removed c p st)
  = debug_output st
    ++ (if tracking p st then
          match memTrackerPool st !! p with
          | Some _ => []
          | None => untracked_free_message :: stack_lines (StackTracker_ctor c)
          end
        else []).
Proof.
  unfold removed. destruct (tracking p st); [|by rewrite app_nil_r].
  cbv zeta. destruct (memTrackerPool st !! p) eqn:Hl.
  - by rewrite app_nil_r.
  - rewrite DumpToDebugOutput_eq. cbn [debug_output OutputDebugString set_heap].
    by rewrite <- app_assoc.
Qed.

(** *** Programs *)

Lemma step_idle (ev : Event) (st : Process) : idle st → idle (fst (step ev st)).
Proof.
  unfold idle. intros Hi. destruct ev as [form c size|form c p|c|c]; cbn [step fst].
  - by rewrite added_critsec.
  - change (critsec (set_heap ?h ?x)) with (critsec x). by rewrite removed_critsec.
  - exact Hi.
  - exact Hi.
Qed.

Lemma exec_idle (fuel : nat) (ev : Event) (st : Process) :
  idle st → exec (S (S fuel)) ev st = Done (step ev st).
Proof.
  intros Hi. destruct ev as [form c size|form c p|c|c]; cbn [exec step].
  - by rewrite call_new_operator_new, operator_new_idle.
  - by rewrite call_delete_operator_delete, operator_delete_idle.
  - by rewrite Pause_idle.
  - by rewrite Resume_idle.
Qed.

Lemma run_idle (fuel : nat) (evs : list Event) (st : Process) :
  idle st → run (S (S fuel)) evs st = Done (steps evs st).
Proof.
  revert st. induction evs as [|ev evs IH]; intros st Hi; [done|].
  cbn [run steps]. rewrite (exec_idle _ _ _ Hi), bind_Done.
  rewrite (IH _ (step_idle ev st Hi)). reflexivity.
Qed.

Lemma steps_idle (evs : list Event) (st : Process) :
  idle st → idle (fst (steps evs st)).
Proof.
  revert st. induction evs as [|ev evs IH]; intros st Hi; [done|].
  cbn [steps fst]. apply IH. by apply step_idle.
Qed.

End Calls.

(** ** The scenarios of the specification *)

(** Ten bytes allocated and freed, twenty bytes allocated and freed: the
    report is the banner. *)
Example scenario_no_leak :
  (r ← @run demo 2 paired_program (@boot demo 0%N);
   mret (drop (length (@debug_output demo (fst r)))
              (@debug_output demo (@MemTracker_dtor demo (fst r)))))
  = Done [@no_memleaks_banner].
Proof. vm_compute. reflexivity. Qed.

(** An address that was never allocated is freed: one diagnostic with the
    stack of the call, and the registry stays empty. *)
Example scenario_stray_free :
  (r ← @run demo 2 [CallDelete Scalar site_b 77%N] (@boot demo 0%N);
   mret (@debug_output demo (fst r), @memTrackerPool demo (fst r)))
  = Done ([ untracked_free_message;
            TAB +:+ TAB +:+ "Unresolved address: 0000000000000019" +:+ LF;
            LF ],
          ∅).
Proof. vm_compute. reflexivity. Qed.

(** While one thread is inside [AddPointer], another thread's call waits at
    the critical section. *)
Example other_thread_waits :
  @operator_new demo 2 site_b 8%N inside_add = Blocked.
Proof. reflexivity. Qed.

(** One level of calls is not enough for a tracked allocation: the container
    calls [operator new] in its turn. *)
Example tracked_allocation_nests :
  @operator_new demo 1 site_a 8%N (@boot demo 0%N) = OutOfFuel.
Proof. reflexivity. Qed.

(** ** The registry along a program *)

Lemma elem_of_passed (p : ptr) (log : list Obs) : p ∈ passed log ↔ Passed p ∈ log.
Proof.
  unfold passed. rewrite elem_of_list_to_set, list_elem_of_omap. split.
  - intros (o & Ho & Hp). destruct o; simplify_eq. exact Ho.
  - intros Hp. by exists (Passed p).
Qed.

Lemma passed_cons_returned (p : ptr) (log : list Obs) :
  passed (Returned p :: log) = passed log.
Proof. reflexivity. Qed.

Lemma passed_cons_passed (p : ptr) (log : list Obs) :
  passed (Passed p :: log) = {[p]} ∪ passed log.
Proof. reflexivity. Qed.

Lemma freed_later_passed (p : ptr) (log : list Obs) :
  freed_later p log = true ↔ p ∈ passed log.
Proof.
  unfold freed_later. rewrite bool_decide_eq_true. symmetry. apply elem_of_passed.
Qed.

Lemma live_returned (p : ptr) (log : list Obs) : p ∈ live log → Returned p ∈ log.
Proof.
  induction log as [|[q|q] log IH]; cbn [live].
  - set_solver.
  - destruct (freed_later q log); set_solver.
  - set_solver.
Qed.

Lemma all_matched_live (log : list Obs) : all_matched log = true ↔ live log = ∅.
Proof.
  induction log as [|[q|q] log IH]; cbn [all_matched live].
  - done.
  - destruct (freed_later q log); cbn [andb]; [exact IH|].
    split; [done|]. intros He. exfalso.
    assert (q ∈ ({[q]} ∪ live log : gset N)) as Hq by set_solver.
    rewrite He in Hq. set_solver.
  - exact IH.
Qed.

Section Along.
Context `{Platform}.

Lemma tracking_active (p : ptr) (st : Process) :
  paused st = false → tracking p st = negb (p =? NULL)%N.
Proof. unfold tracking. by intros ->. Qed.

(** The keys after a program that never pauses tracking: the keys it
    started with, less the addresses it freed, and the non-null addresses it
    allocated and has not freed since. *)
Lemma steps_keys (evs : list Event) (st : Process) :
  paused st = false →
  never_paused evs = true →
  NULL ∉ dom (memTrackerPool st) →
  paused (fst (steps evs st)) = false
  ∧ dom (memTrackerPool (fst (steps evs st)))
    = (dom (memTrackerPool st) ∖ passed (snd (steps evs st)))
      ∪ (live (snd (steps evs st)) ∖ {[NULL]}).
Proof.
  revert st. induction evs as [|ev evs IH]; intros st Hp Hn H0.
  { split; [exact Hp|]. cbn. set_solver. }
  cbn [never_paused forallb] in Hn. apply andb_prop in Hn as [Hev Hn].
  cbn [steps fst snd].
  destruct ev as [form c size|form c p|c|c]; [| | done |].
  - (* an allocation *)
    cbn [step fst snd].
    set (p := fst (malloc size (heap st))).
    set (st1 := added c p size (set_heap (snd (malloc size (heap st))) st)).
    assert (paused st1 = false) as Hp1 by (unfold st1; by rewrite added_paused).
    assert (memTrackerPool st1
            = if negb (p =? NULL)%N
              then <[p := AllocationInfo_ctor c size]> (memTrackerPool st)
              else memTrackerPool st) as Hpool.
    { unfold st1. rewrite added_pool, tracking_active by exact Hp. reflexivity. }
    assert (NULL ∉ dom (memTrackerPool st1)) as H01.
    { rewrite Hpool. destruct (N.eqb_spec p NULL) as [?|Hne]; cbn [negb]; [done|].
      rewrite dom_insert_L. set_solver. }
    destruct (IH st1 Hp1 Hn H01) as [Hp' Hd]. split; [exact Hp'|].
    rewrite Hd. cbn [app]. rewrite passed_cons_returned. cbn [live].
    rewrite Hpool.
    destruct (N.eqb_spec p NULL) as [Heq|Hne]; cbn [negb].
    + destruct (freed_later p (snd (steps evs st1))); [done|]. set_solver.
    + rewrite dom_insert_L.
      destruct (freed_later p (snd (steps evs st1))) eqn:Hf.
      * apply freed_later_passed in Hf. set_solver.
      * assert (p ∉ passed (snd (steps evs st1))) as Hnf.
        { intros Hc. apply freed_later_passed in Hc. congruence. }
        set_solver.
  - (* a deallocation *)
    cbn [step fst snd].
    set (st1 := set_heap (free p (heap (removed c p st))) (removed c p st)).
    assert (paused st1 = false) as Hp1.
    { unfold st1. change (paused (set_heap ?h ?x)) with (paused x).
      by rewrite removed_paused. }
    assert (memTrackerPool st1
            = if negb (p =? NULL)%N then delete p (memTrackerPool st)
              else memTrackerPool st) as Hpool.
    { unfold st1. change (memTrackerPool (set_heap ?h ?x)) with (memTrackerPool x).
      rewrite removed_pool, tracking_active by exact Hp. reflexivity. }
    assert (NULL ∉ dom (memTrackerPool st1)) as H01.
    { rewrite Hpool. destruct (negb (p =? NULL)%N); [|done].
      rewrite dom_delete_L. set_solver. }
    destruct (IH st1 Hp1 Hn H01) as [Hp' Hd]. split; [exact Hp'|].
    rewrite Hd. cbn [app]. rewrite passed_cons_passed. cbn [live].
    rewrite Hpool.
    destruct (N.eqb_spec p NULL) as [Heq|Hne]; cbn [negb].
    + subst p. set_solver.
    + rewrite dom_delete_L. set_solver.
  - (* ResumeTracking *)
    cbn [step fst snd app].
    apply (IH (set_paused false st)); done.
Qed.

Lemma steps_keys_boot (evs : list Event) (h : Heap) :
  never_paused evs = true →
  dom (memTrackerPool (fst (steps evs (boot h))))
  = live (snd (steps evs (boot h))) ∖ {[NULL]}.
Proof.
  intros Hn.
  destruct (steps_keys evs (boot h)) as [_ Hd]; [done|exact Hn|cbn; set_solver|].
  rewrite Hd. cbn. set_solver.
Qed.

End Along.

(** ** The report *)

(** A text that fits the buffer is printed whole. *)
Lemma sntprintf_s_short (count : nat) (text : string) :
  String.length text ≤ count → sntprintf_s count text = text.
Proof.
  unfold sntprintf_s. revert count.
  induction text as [|ch text IH]; intros [|count] Hlen; cbn in *; try done; try lia.
  f_equal. apply IH. lia.
Qed.

Lemma sum_sizes_perm (l l' : list (ptr * AllocationInfo.t)) :
  l ≡ₚ l' → sum_sizes l = sum_sizes l'.
Proof.
  induction 1 as [|x l l' _ IH|x y l|l l' l'' _ IH1 _ IH2]; cbn [sum_sizes foldr].
  - reflexivity.
  - fold (sum_sizes l) (sum_sizes l'). by rewrite IH.
  - lia.
  - by rewrite IH1.
Qed.

Lemma leaked_bytes_sum (pool : gmap N AllocationInfo.t) :
  leaked_bytes pool = sum_sizes (map_to_list pool).
Proof.
  unfold leaked_bytes, sum_sizes. rewrite map_fold_foldr.
  induction (map_to_list pool) as [|[k info] l IH]; [done|].
  cbn [foldr]. by rewrite IH.
Qed.

Lemma size_t_wrap_add (a b : N) :
  size_t_wrap (size_t_wrap a + b) = size_t_wrap (a + b).
Proof. unfold size_t_wrap. by rewrite N.Div0.add_mod_idemp_l. Qed.

Lemma size_t_wrap_small (a : N) : (a < 2 ^ SIZE_BITS)%N → size_t_wrap a = a.
Proof. intros Ha. unfold size_t_wrap. by apply N.mod_small. Qed.

Section ReportProofs.
Context `{Platform}.

(** The loop of the destructor, from any point of the visit. *)
Lemma dtor_loop (entries : list (ptr * AllocationInfo.t)) (st : Process) (total : N) :
  let r :=
    foldl (λ '(st, totalLeaked) entry,
             let st := OutputDebugString (leak_text (AllocationInfo.size (snd entry))) st in
             let st := DumpToDebugOutput (AllocationInfo.stack (snd entry)) st in
             (st, size_t_wrap (totalLeaked + AllocationInfo.size (snd entry))))
          (st, size_t_wrap total) entries in
  debug_output (fst r)
  = debug_output st ++ concat (map (λ entry, leak_block (snd entry)) entries)
  ∧ snd r = size_t_wrap (total + sum_sizes entries).
Proof.
  cbv zeta. revert st total.
  induction entries as [|entry entries IH]; intros st total.
  { cbn. by rewrite app_nil_r, N.add_0_r. }
  cbn [foldl map concat sum_sizes foldr]. fold (sum_sizes entries).
  rewrite size_t_wrap_add.
  destruct (IH (DumpToDebugOutput (AllocationInfo.stack (snd entry))
                  (OutputDebugString (leak_text (AllocationInfo.size (snd entry))) st))
               (total + AllocationInfo.size (snd entry))%N) as [Ho Ht].
  rewrite Ho, Ht. split.
  - rewrite DumpToDebugOutput_output. cbn [debug_output OutputDebugString].
    unfold leak_block. by rewrite <- !app_assoc.
  - f_equal. lia.
Qed.

Lemma MemTracker_dtor_output (st : Process) :
  debug_output (MemTracker_dtor st)
  = debug_output st
    ++ (if decide (memTrackerPool st = ∅) then [no_memleaks_banner]
        else [memleaks_header]
             ++ concat (map (λ entry, leak_block (snd entry))
                            (iteration (memTrackerPool st)))
             ++ [total_text (size_t_wrap (leaked_bytes (memTrackerPool st)))]).
Proof.
  unfold MemTracker_dtor. cbv zeta.
  change (memTrackerPool (set_paused true st)) with (memTrackerPool st).
  destruct (decide (memTrackerPool st = ∅)) as [He|Hne].
  - rewrite He, map_size_empty. reflexivity.
  - destruct (Nat.eqb_spec (size (memTrackerPool st)) 0) as [Hs|Hs].
    { by apply map_size_empty_iff in Hs. }
    cbn [negb].
    pose proof (dtor_loop (iteration (memTrackerPool st))
                  (OutputDebugString memleaks_header (set_paused true st)) 0) as Hl.
    cbv zeta in Hl. change (size_t_wrap 0) with 0%N in Hl.
    destruct (foldl _ _ _) as [st' total]. cbn [fst snd] in Hl.
    destruct Hl as [Ho ->]. cbn [debug_output OutputDebugString]. rewrite Ho.
    cbn [debug_output OutputDebugString set_paused].
    rewrite N.add_0_l, leaked_bytes_sum, (sum_sizes_perm _ _ (iteration_perm _)).
    by rewrite <- !app_assoc.
Qed.

End ReportProofs.

(** * The claims of the specification *)

(** C1.  Take any sequence of calls that never pauses tracking, started when
    the tracker has just been constructed, in which no allocation returned
    the null pointer.  The sequence runs to completion, and the keys of the
    registry are then exactly the addresses that an allocation entry point
    returned and that no deallocation entry point has been given since.
    (The sequence is arbitrary, so this holds between any two calls.  That
    live allocations have distinct addresses is not needed.) *)
Theorem registry_keys_are_live_addresses `{Platform}
    (fuel : nat) (evs : list Event) (h : Heap) :
  never_paused evs = true →
  never_null (observed (run (S (S fuel)) evs (boot h))) = true →
  ∃ st log,
    run (S (S fuel)) evs (boot h) = Done (st, log)
    ∧ dom (memTrackerPool st) = live log.
Proof.
  intros Hn H0. rewrite run_idle in * by apply boot_idle.
  exists (fst (steps evs (boot h))), (snd (steps evs (boot h))).
  split; [by destruct (steps evs (boot h))|].
  rewrite steps_keys_boot by exact Hn.
  cbn [observed] in H0. unfold never_null in H0. apply bool_decide_eq_true in H0.
  assert (NULL ∉ live (snd (steps evs (boot h)))) as Hl.
  { intros Hc. by apply H0, live_returned. }
  set_solver.
Qed.

Lemma registry_keys_are_live_addresses_witness :
  never_paused mixed_program = true
  ∧ never_null (observed (@run demo 2 mixed_program (@boot demo 0%N))) = true
  ∧ ∃ st log,
      @run demo 2 mixed_program (@boot demo 0%N) = Done (st, log)
      ∧ dom (@memTrackerPool demo st) = live log.
Proof.
  split; [reflexivity|]. split; [vm_compute; reflexivity|].
  apply (@registry_keys_are_live_addresses demo 0 mixed_program 0%N).
  - reflexivity.
  - vm_compute; reflexivity.
Defined.

(** C2.  Take any sequence of calls that never pauses tracking, started when
    the tracker has just been constructed, in which every address returned
    by an allocation is passed to a deallocation later on.  The sequence runs
    to completion and leaves the registry empty. *)
Theorem matched_pairs_leave_registry_empty `{Platform}
    (fuel : nat) (evs : list Event) (h : Heap) :
  never_paused evs = true →
  all_matched (observed (run (S (S fuel)) evs (boot h))) = true →
  ∃ st log,
    run (S (S fuel)) evs (boot h) = Done (st, log)
    ∧ memTrackerPool st = ∅.
Proof.
  intros Hn Hm. rewrite run_idle in * by apply boot_idle.
  exists (fst (steps evs (boot h))), (snd (steps evs (boot h))).
  split; [by destruct (steps evs (boot h))|].
  apply dom_empty_inv_L. rewrite steps_keys_boot by exact Hn.
  cbn [observed] in Hm. apply all_matched_live in Hm. rewrite Hm. set_solver.
Qed.

Lemma matched_pairs_leave_registry_empty_witness :
  never_paused paired_program = true
  ∧ all_matched (observed (@run demo 2 paired_program (@boot demo 0%N))) = true
  ∧ ∃ st log,
      @run demo 2 paired_program (@boot demo 0%N) = Done (st, log)
      ∧ @memTrackerPool demo st = ∅.
Proof.
  split; [reflexivity|]. split; [vm_compute; reflexivity|].
  apply (@matched_pairs_leave_registry_empty demo 0 paired_program 0%N).
  - reflexivity.
  - vm_compute; reflexivity.
Defined.

(** C3.  At teardown the destructor adds to the debug output the report of
    the registry: the banner [No memleaks found.] alone when the registry is
    empty; otherwise the header, then for every record, each visited once in
    the order of the container, its [Leak: <size> bytes] line followed by one
    line per captured frame (file and line when the frame resolves, the raw
    address when it does not) and an empty line, then the line
    [Total bytes leaked: <sum>] with the sum of the recorded sizes, provided
    that sum fits [size_t].  The text is the one of the format strings of the
    source: the header follows an empty line, a stack line starts with two
    tabs, the total with one, and the banner stands between two rows of
    asterisks. *)
Theorem leak_report_at_teardown `{Platform} (st : Process) :
  (leaked_bytes (memTrackerPool st) < 2 ^ SIZE_BITS)%N →
  debug_output (MemTracker_dtor st)
  = debug_output st ++ leak_report (memTrackerPool st)
  ∧ iteration (memTrackerPool st) ≡ₚ map_to_list (memTrackerPool st).
Proof.
  intros Hfit. split; [|apply iteration_perm].
  rewrite MemTracker_dtor_output. unfold leak_report.
  by rewrite (size_t_wrap_small _ Hfit).
Qed.

Lemma leak_report_at_teardown_witness :
  (leaked_bytes (@memTrackerPool demo one_leak) < 2 ^ SIZE_BITS)%N
  ∧ @debug_output demo (@MemTracker_dtor demo one_leak)
    = [ LF +:+ "--- Memleaks start here ---" +:+ LF +:+ LF;
        "Leak: 64 bytes" +:+ LF;
        TAB +:+ TAB +:+ "Unresolved address: 000000000000000F" +:+ LF;
        TAB +:+ TAB +:+ "main.cpp (8)" +:+ LF;
        TAB +:+ TAB +:+ "main.cpp (9)" +:+ LF;
        LF;
        TAB +:+ "Total bytes leaked: 64" +:+ LF +:+ LF ].
Proof.
  split; [vm_compute; reflexivity|].
  etransitivity.
  - apply (@leak_report_at_teardown demo one_leak). vm_compute; reflexivity.
  - vm_compute; reflexivity.
Defined.

(** C3, as the specification words it: the text of the report is not, to the
    letter, the block of the External Interfaces section, neither for one
    leak of 64 bytes nor for an empty registry; for the leak it does not even
    have the block's number of lines. *)
Lemma report_is_not_the_block_of_the_specification :
  String.eqb (String.concat "" (@debug_output demo (@MemTracker_dtor demo one_leak)))
             (@spec_report_text demo (@memTrackerPool demo one_leak)) = false
  ∧ line_ends (String.concat "" (@debug_output demo (@MemTracker_dtor demo one_leak))) = 10
  ∧ line_ends (@spec_report_text demo (@memTrackerPool demo one_leak)) = 8
  ∧ String.eqb (String.concat "" (@debug_output demo (@MemTracker_dtor demo (@boot demo 0%N))))
               (@spec_report_text demo (@memTrackerPool demo (@boot demo 0%N))) = false.
Proof. repeat split; vm_compute; reflexivity. Qed.

(** ** The diagnostic of an untracked free *)

Section Diagnostic.
Context `{Platform}.

Lemma frame_text_head (a : ptr) : ∃ rest, frame_text a = String (ascii_of_N 9) rest.
Proof.
  unfold frame_text, sntprintf_s.
  destruct (SymGetLineFromAddr a) as [[file line]|]; eexists; reflexivity.
Qed.

Lemma message_not_in_stack_lines (s : StackTracker.t) :
  untracked_free_message ∉ stack_lines s.
Proof.
  unfold stack_lines. rewrite elem_of_app, list_elem_of_fmap.
  intros [(a & Ha & _)|Hl].
  - destruct (frame_text_head a) as [rest Hr]. rewrite Hr in Ha. discriminate Ha.
  - apply list_elem_of_singleton in Hl. discriminate Hl.
Qed.

End Diagnostic.



(** ** Suppressed and paused calls *)

Section Suppressed.
Context `{Platform}.

(** Inside [AddPointer] and [RemovePointer], once the lock is taken and
    [paused] is set, tracking is suppressed for the calling thread. *)
Lemma suppressed_inside (c : Caller) (st : Process) :
  idle st →
  ∃ st1, Lock_ctor c st = Done st1 ∧ suppressed_for c (set_paused true st1).
Proof.
  intros Hi. eexists. split; [by apply Lock_ctor_idle|]. by repeat split.
Qed.

Lemma removed_paused_id (c : Caller) (p : ptr) (st : Process) :
  paused st = true → removed c p st = st.
Proof. intros Hp. unfold removed, tracking. by rewrite Hp. Qed.

Lemma added_paused_id (c : Caller) (p : ptr) (size : N) (st : Process) :
  paused st = true → added c p size st = st.
Proof. intros Hp. unfold added, tracking. by rewrite Hp. Qed.

(** While paused, a program that does not resume leaves the tracker and
    the debug output alone. *)
Lemma steps_paused (evs : list Event) (st : Process) :
  paused st = true →
  never_resumed evs = true →
  memTracker (fst (steps evs st)) = memTracker st
  ∧ debug_output (fst (steps evs st)) = debug_output st.
Proof.
  revert st. induction evs as [|ev evs IH]; intros st Hp Hn; [done|].
  cbn [never_resumed forallb] in Hn. apply andb_prop in Hn as [Hev Hn].
  cbn [steps fst].
  destruct ev as [form c size|form c p|c|c]; [| | |done]; cbn [step fst].
  - rewrite added_paused_id by exact Hp.
    destruct (IH (set_heap (snd (malloc size (heap st))) st) Hp Hn) as [-> ->]. done.
  - rewrite removed_paused_id by exact Hp.
    destruct (IH (set_heap (free p (heap st)) st) Hp Hn) as [-> ->]. done.
  - destruct (IH (set_paused true st) eq_refl Hn) as [-> ->].
    split; [|done]. destruct st as [[cs pa pool] h out dbg]. proj. by subst pa.
Qed.

Lemma filter_key_absent (p : ptr) (l : list (ptr * AllocationInfo.t)) :
  p ∉ l.*1 → filter (λ e, e.1 = p) l = [].
Proof.
  induction l as [|[k v] l IH]; [done|].
  cbn [fmap list_fmap fst]. rewrite not_elem_of_cons. intros [Hne Hin].
  rewrite filter_cons. cbn [fst].
  rewrite decide_False by congruence. by apply IH.
Qed.

Lemma filter_key_once (p : ptr) (l : list (ptr * AllocationInfo.t)) :
  NoDup (l.*1) → p ∈ l.*1 → length (filter (λ e, e.1 = p) l) = 1.
Proof.
  induction l as [|[k v] l IH]; cbn [fmap list_fmap fst]; intros Hnd Hin.
  - by apply elem_of_nil in Hin.
  - apply NoDup_cons in Hnd as [Hk Hnd]. rewrite filter_cons. cbn [fst].
    destruct (decide (k = p)) as [->|Hne].
    + cbn [length]. by rewrite filter_key_absent.
    + apply IH; [exact Hnd|]. apply elem_of_cons in Hin as [?|?]; [congruence|done].
Qed.

Lemma iteration_key_once (p : ptr) (pool : gmap N AllocationInfo.t) :
  is_Some (pool !! p) → length (filter (λ e, e.1 = p) (iteration pool)) = 1.
Proof.
  intros [v Hv]. apply filter_key_once.
  - rewrite (iteration_perm pool). apply NoDup_fst_map_to_list.
  - rewrite (iteration_perm pool). apply list_elem_of_fmap.
    exists (p, v). split; [done|]. by apply elem_of_map_to_list.
Qed.

End Suppressed.

(** C5.  While the thread of [c] is inside [AddPointer] or [RemovePointer]
    with the suppression flag set, a call it makes to [operator new] (as the
    container does for its nodes) completes: it is not blocked by the
    lock its own thread holds, it returns the block [malloc] produced, and it
    leaves the registry and the rest of the tracker untouched, so the block
    is not recorded.  The same holds for [operator delete] and for any
    series of such calls. *)
Theorem reentrant_allocation_is_skipped `{Platform}
    (fuel : nat) (c : Caller) (size : N) (block : ptr) (ops : list StorageOp)
    (st : Process) :
  suppressed_for c st →
  (∃ st', operator_new (S fuel) c size st = Done (fst (malloc size (heap st)), st')
          ∧ memTracker st' = memTracker st
          ∧ debug_output st' = debug_output st)
  ∧ (∃ st', operator_delete (S fuel) c block st = Done st'
            ∧ memTracker st' = memTracker st
            ∧ debug_output st' = debug_output st)
  ∧ (∃ st', container_storage (operator_new (S fuel)) (operator_delete (S fuel)) c ops st
            = Done st'
            ∧ memTracker st' = memTracker st
            ∧ debug_output st' = debug_output st).
Proof.
  intros Hs. repeat split.
  - rewrite operator_new_suppressed by exact Hs. by eexists.
  - rewrite operator_delete_suppressed by exact Hs. by eexists.
  - rewrite container_storage_suppressed by exact Hs. by eexists.
Qed.

Lemma reentrant_allocation_is_skipped_witness :
  @suppressed_for demo site_a inside_add
  ∧ ∃ st', @operator_new demo 1 site_a 48%N inside_add = Done (4208%N, st')
           ∧ @memTracker demo st' = @memTracker demo inside_add
           ∧ @debug_output demo st' = @debug_output demo inside_add.
Proof.
  assert (@suppressed_for demo site_a inside_add) as Hs by (by repeat split).
  split; [exact Hs|].
  exact (proj1 (@reentrant_allocation_is_skipped demo 0 site_a 48%N 0%N [] inside_add Hs)).
Defined.

(** C6.  From a process in which no thread is inside the tracker: after
    [Pause], any series of allocations and deallocations (and further
    pauses), up to the next [Resume], runs to completion and leaves the
    registry as it was; [Pause] and [Resume] themselves leave it as it was;
    and after [Resume] tracking is active again: the flag is clear and the
    next [AddPointer] of a non-null address records it. *)
Theorem paused_interval_preserves_registry `{Platform}
    (fuel : nat) (c c' : Caller) (evs : list Event) (st : Process) :
  idle st →
  never_resumed evs = true →
  ∃ st1 st2 log st3,
    Pause c st = Done st1
    ∧ memTrackerPool st1 = memTrackerPool st
    ∧ run (S (S fuel)) evs st1 = Done (st2, log)
    ∧ memTrackerPool st2 = memTrackerPool st
    ∧ Resume c' st2 = Done st3
    ∧ memTrackerPool st3 = memTrackerPool st
    ∧ paused st3 = false
    ∧ ∀ p size, p ≠ NULL →
        ∃ st4, memTracker_AddPointer (S fuel) c' p size st3 = Done st4
               ∧ memTrackerPool st4
                 = <[p := AllocationInfo_ctor c' size]> (memTrackerPool st).
Proof.
  intros Hi Hn.
  assert (idle (set_paused true st)) as Hi1 by exact Hi.
  destruct (steps_paused evs (set_paused true st) eq_refl Hn) as [Hm _].
  pose proof (steps_idle evs _ Hi1) as Hi2.
  assert (memTrackerPool (fst (steps evs (set_paused true st))) = memTrackerPool st)
    as Hpool by (unfold memTrackerPool; by rewrite Hm).
  exists (set_paused true st), (fst (steps evs (set_paused true st))),
         (snd (steps evs (set_paused true st))),
         (set_paused false (fst (steps evs (set_paused true st)))).
  split; [by apply Pause_idle|]. split; [reflexivity|].
  split; [rewrite run_idle by exact Hi1; by destruct (steps evs _)|].
  split; [exact Hpool|].
  split; [by apply Resume_idle|]. split; [exact Hpool|]. split; [reflexivity|].
  intros p size Hp. eexists. split; [apply AddPointer_idle; exact Hi2|].
  rewrite added_pool.
  change (memTrackerPool (set_paused false ?x)) with (memTrackerPool x).
  rewrite Hpool, tracking_active by reflexivity.
  by destruct (N.eqb_spec p NULL).
Qed.

Lemma paused_interval_preserves_registry_witness :
  never_resumed exempt_program = true
  ∧ ∃ st1 st2 log st3,
      @Pause demo site_a one_leak = Done st1
      ∧ @memTrackerPool demo st1 = @memTrackerPool demo one_leak
      ∧ @run demo 2 exempt_program st1 = Done (st2, log)
      ∧ @memTrackerPool demo st2 = @memTrackerPool demo one_leak
      ∧ @Resume demo site_b st2 = Done st3
      ∧ @memTrackerPool demo st3 = @memTrackerPool demo one_leak
      ∧ @paused demo st3 = false
      ∧ ∀ p size, p ≠ NULL →
          ∃ st4, @memTracker_AddPointer demo 1 site_b p size st3 = Done st4
                 ∧ @memTrackerPool demo st4
                   = <[p := AllocationInfo_ctor site_b size]> (@memTrackerPool demo one_leak).
Proof.
  split; [reflexivity|].
  apply (@paused_interval_preserves_registry demo 0 site_a site_b exempt_program one_leak).
  - reflexivity.
  - reflexivity.
Defined.

(** C7.  When tracking is active and the non-null address [p] is already in
    the registry, another [AddPointer] for [p] completes, replaces the record
    of [p] by one with the new size, prints nothing, keeps the number of
    records, and leaves exactly one record for [p] in the container. *)
Theorem duplicate_add_overwrites `{Platform}
    (fuel : nat) (c : Caller) (p : ptr) (size' : N) (st : Process) :
  idle st →
  paused st = false →
  p ≠ NULL →
  is_Some (memTrackerPool st !! p) →
  ∃ st',
    memTracker_AddPointer (S fuel) c p size' st = Done st'
    ∧ memTrackerPool st' = <[p := AllocationInfo_ctor c size']> (memTrackerPool st)
    ∧ AllocationInfo.size <$> memTrackerPool st' !! p = Some size'
    ∧ debug_output st' = debug_output st
    ∧ size (memTrackerPool st') = size (memTrackerPool st)
    ∧ length (filter (λ e, e.1 = p) (iteration (memTrackerPool st'))) = 1.
Proof.
  intros Hi Hp Hn [old Hold].
  exists (added c p size' st).
  assert (memTrackerPool (added c p size' st)
          = <[p := AllocationInfo_ctor c size']> (memTrackerPool st)) as Hpool.
  { rewrite added_pool, tracking_active by exact Hp. by destruct (N.eqb_spec p NULL). }
  split; [by apply AddPointer_idle|]. split; [exact Hpool|].
  rewrite Hpool. split; [by rewrite lookup_insert_eq|].
  split; [apply added_output|].
  split; [by apply map_size_insert_Some|].
  apply iteration_key_once. rewrite lookup_insert_eq. by eexists.
Qed.

Lemma duplicate_add_overwrites_witness :
  ∃ st',
    @memTracker_AddPointer demo 1 site_b 4096%N 7%N one_leak = Done st'
    ∧ @memTrackerPool demo st'
      = <[4096%N := AllocationInfo_ctor site_b 7%N]> (@memTrackerPool demo one_leak)
    ∧ AllocationInfo.size <$> @memTrackerPool demo st' !! 4096%N = Some 7%N
    ∧ @debug_output demo st' = @debug_output demo one_leak
    ∧ size (@memTrackerPool demo st') = size (@memTrackerPool demo one_leak)
    ∧ length (filter (λ e, e.1 = 4096%N) (@iteration demo (@memTrackerPool demo st'))) = 1.
Proof.
  apply (@duplicate_add_overwrites demo 0 site_b 4096%N 7%N one_leak).
  - reflexivity.
  - reflexivity.
  - discriminate.
  - vm_compute. by eexists.
Defined.



(** C9.  The four allocation entry points compute the same result from the
    same size, caller and process, whatever file and line they are given;
    so do the four deallocation entry points from the same pointer. *)
Theorem entry_points_agree `{Platform}
    (fuel : nat) (form form' : Form) (c : Caller) (size : N) (pointer : ptr)
    (st : Process) :
  call_new fuel form c size st = call_new fuel form' c size st
  ∧ call_delete fuel form c pointer st = call_delete fuel form' c pointer st.
Proof.
  split.
  - by rewrite !call_new_operator_new.
  - by rewrite !call_delete_operator_delete.
Qed.

(** C10.  [Pause] and [Resume] assign the flag, whatever it was: from a
    process in which no thread is inside the tracker, each completes with the
    flag set, respectively clear, and nothing else changed; two of the same
    in a row do what one does; and after any number of [Pause]s one
    [Resume] leaves the process exactly as a [Resume] alone would, with
    tracking active. *)
Theorem pause_resume_idempotent `{Platform}
    (fuel : nat) (c1 c2 : Caller) (n : nat) (st : Process) :
  idle st →
  Pause c1 st = Done (set_paused true st)
  ∧ Resume c1 st = Done (set_paused false st)
  ∧ (Pause c1 st ≫= Pause c2) = Pause c2 st
  ∧ (Resume c1 st ≫= Resume c2) = Resume c2 st
  ∧ fst <$> run (S (S fuel)) (replicate n (CallPause c1) ++ [CallResume c2]) st
    = Resume c2 st
  ∧ paused (set_paused false st) = false.
Proof.
  intros Hi.
  assert (∀ b, idle (set_paused b st)) as Hib by (intros b; exact Hi).
  split; [by apply Pause_idle|]. split; [by apply Resume_idle|].
  rewrite !Pause_idle, !Resume_idle, !bind_Done by exact Hi.
  rewrite Pause_idle, Resume_idle by apply Hib.
  split; [done|]. split; [done|]. split; [|done].
  rewrite run_idle by exact Hi. cbn [fmap outcome_fmap]. f_equal.
  clear Hib. revert st Hi. induction n as [|n IH]; intros st Hi.
  - reflexivity.
  - cbn [replicate app steps step fst]. rewrite IH by exact Hi.
    reflexivity.
Qed.

Lemma pause_resume_idempotent_witness :
  @Pause demo site_a one_leak = Done (@set_paused demo true one_leak)
  ∧ @Resume demo site_a one_leak = Done (@set_paused demo false one_leak)
  ∧ (@Pause demo site_a one_leak ≫= @Pause demo site_b) = @Pause demo site_b one_leak
  ∧ (@Resume demo site_a one_leak ≫= @Resume demo site_b) = @Resume demo site_b one_leak
  ∧ fst <$> @run demo 2 (replicate 3 (CallPause site_a) ++ [CallResume site_b]) one_leak
    = @Resume demo site_b one_leak
  ∧ @paused demo (@set_paused demo false one_leak) = false.
Proof.
  exact (@pause_resume_idempotent demo 0 site_a site_b 3 one_leak eq_refl).
Defined.

(** * More properties of the code *)

(** ** The lock discipline of the methods *)

Section Enterable.
Context `{Platform}.

Lemma Lock_ctor_enterable (c : Caller) (st : Process) :
  enterable c st →
  ∃ m, Lock_ctor c st = Done (set_critsec m st)
       ∧ Mutex.owner m = Some (thread c)
       ∧ Mutex.recursion m ≠ 0
       ∧ LeaveCriticalSection m = critsec st.
Proof.
  intros [Hi|[Ho Hr]].
  - eexists. split; [by apply Lock_ctor_idle|]. repeat split; [done|]. by rewrite Hi.
  - eexists. split; [by apply Lock_ctor_owned|]. repeat split; [done|].
    by apply leave_enter_owned.
Qed.


Lemma AddPointer_enterable (fuel : nat) (c : Caller) (p : ptr) (size : N) (st : Process) :
  enterable c st →
  memTracker_AddPointer (S fuel) c p size st = Done (added c p size st).
Proof.
  intros He. destruct (Lock_ctor_enterable c st He) as (m & HL & Ho & Hr & Hleave).
  unfold memTracker_AddPointer, AddPointer, added, tracking. rewrite HL, bind_Done.
  change (paused (set_critsec ?m st)) with (paused st).
  destruct (negb (paused st) && negb (p =? NULL)%N) eqn:Ht.
  - unfold insert_or_assign.
    rewrite container_storage_suppressed by (repeat split; done).
    rewrite !bind_Done. f_equal. apply andb_prop in Ht as [Hp _].
    clear He HL. destruct st as [[cs pa pool] h out dbg]. proj. rewrite Hleave.
    destruct pa; [done|reflexivity].
  - rewrite bind_Done. f_equal.
    clear He HL. destruct st as [[cs pa pool] h out dbg]. proj. by rewrite Hleave.
Qed.

Lemma RemovePointer_enterable (fuel : nat) (c : Caller) (p : ptr) (st : Process) :
  enterable c st →
  memTracker_RemovePointer (S fuel) c p st = Done (removed c p st).
Proof.
  intros He. destruct (Lock_ctor_enterable c st He) as (m & HL & Ho & Hr & Hleave).
  unfold memTracker_RemovePointer, RemovePointer, removed, tracking.
  rewrite HL, bind_Done.
  change (paused (set_critsec ?m st)) with (paused st).
  destruct (negb (paused st) && negb (p =? NULL)%N) eqn:Ht.
  - apply andb_prop in Ht as [Hp _].
    unfold erase.
    rewrite container_storage_suppressed by (repeat split; done).
    rewrite !bind_Done. cbv zeta. cbn [fst snd].
    change (memTrackerPool (set_heap ?h ?x)) with (memTrackerPool x).
    change (memTrackerPool (set_paused ?b ?x)) with (memTrackerPool x).
    change (memTrackerPool (set_critsec ?b ?x)) with (memTrackerPool x).
    clear He HL.
    destruct (memTrackerPool st !! p) as [info|] eqn:Hl; cbn [N.eqb]; f_equal.
    + destruct st as [[cs pa pool] h out dbg]. proj. rewrite Hleave.
      destruct pa; [done|reflexivity].
    + rewrite !DumpToDebugOutput_eq.
      destruct st as [[cs pa pool] h out dbg]. proj. rewrite Hleave.
      rewrite delete_id by done. destruct pa; [done|reflexivity].
  - rewrite bind_Done. f_equal.
    clear He HL. destruct st as [[cs pa pool] h out dbg]. proj. by rewrite Hleave.
Qed.

Lemma Pause_enterable (c : Caller) (st : Process) :
  enterable c st → Pause c st = Done (set_paused true st).
Proof.
  intros He. destruct (Lock_ctor_enterable c st He) as (m & HL & Ho & Hr & Hleave).
  unfold Pause. rewrite HL, bind_Done. cbv zeta. f_equal.
  clear He HL. destruct st as [[cs pa pool] h out dbg]. proj. by rewrite Hleave.
Qed.

Lemma Resume_enterable (c : Caller) (st : Process) :
  enterable c st → Resume c st = Done (set_paused false st).
Proof.
  intros He. destruct (Lock_ctor_enterable c st He) as (m & HL & Ho & Hr & Hleave).
  unfold Resume. rewrite HL, bind_Done. cbv zeta. f_equal.
  clear He HL. destruct st as [[cs pa pool] h out dbg]. proj. by rewrite Hleave.
Qed.

(** With the flag set, the methods do nothing, whatever operators they are
    linked to. *)
Lemma AddPointer_paused gn gd (c : Caller) (p : ptr) (size : N) (st : Process) :
  enterable c st → paused st = true → AddPointer gn gd c p size st = Done st.
Proof.
  intros He Hp. destruct (Lock_ctor_enterable c st He) as (m & HL & Ho & Hr & Hleave).
  unfold AddPointer. rewrite HL, bind_Done.
  change (paused (set_critsec ?m st)) with (paused st). rewrite Hp. cbn [negb andb].
  rewrite bind_Done. f_equal.
  clear He HL. destruct st as [[cs pa pool] h out dbg]. proj. by rewrite Hleave.
Qed.

Lemma RemovePointer_paused gn gd (c : Caller) (p : ptr) (st : Process) :
  enterable c st → paused st = true → RemovePointer gn gd c p st = Done st.
Proof.
  intros He Hp. destruct (Lock_ctor_enterable c st He) as (m & HL & Ho & Hr & Hleave).
  unfold RemovePointer. rewrite HL, bind_Done.
  change (paused (set_critsec ?m st)) with (paused st). rewrite Hp. cbn [negb andb].
  rewrite bind_Done. f_equal.
  clear He HL. destruct st as [[cs pa pool] h out dbg]. proj. by rewrite Hleave.
Qed.

Lemma container_storage_paused (fuel : nat) (c : Caller) (ops : list StorageOp)
    (st : Process) :
  enterable c st →
  paused st = true →
  container_storage (operator_new (S fuel)) (operator_delete (S fuel)) c ops st
  = Done (set_heap (storage_heap ops (heap st)) st).
Proof.
  unfold container_storage, storage_heap.
  revert st. induction ops as [|op ops IH] using rev_ind; intros st He Hp.
  { simpl. f_equal. by destruct st. }
  rewrite !foldl_app. cbn [foldl]. rewrite (IH st He Hp), bind_Done.
  set (h := foldl _ (heap st) ops).
  assert (enterable c (set_heap h st)) as He' by exact He.
  assert (paused (set_heap h st) = true) as Hp' by exact Hp.
  destruct op as [bytes|block].
  - change (operator_new (S fuel) c bytes (set_heap h st))
      with (let '(p, h') := malloc bytes (heap (set_heap h st)) in
            st' ← AddPointer (operator_new fuel) (operator_delete fuel) c p bytes
                    (set_heap h' (set_heap h st));
            mret (p, st')).
    cbn [heap set_heap]. destruct (malloc bytes h) as [p h'] eqn:Hm.
    rewrite AddPointer_paused by done. reflexivity.
  - change (operator_delete (S fuel) c block (set_heap h st))
      with (st' ← RemovePointer (operator_new fuel) (operator_delete fuel) c block
                    (set_heap h st);
            mret (set_heap (free block (heap st')) st')).
    rewrite RemovePointer_paused by done. reflexivity.
Qed.

End Enterable.



(** X2.  Called by a thread that may enter (the critical section is
    free, or the thread owns it already), each of the four methods completes
    and leaves the critical section exactly as it found it; [AddPointer] and
    [RemovePointer] also leave the flag [paused] as it was, although they set
    and clear it on the way. *)
Theorem methods_release_what_they_take `{Platform}
    (fuel : nat) (c : Caller) (p : ptr) (size : N) (st : Process) :
  enterable c st →
  ∃ st1 st2 st3 st4,
    memTracker_AddPointer (S fuel) c p size st = Done st1
    ∧ critsec st1 = critsec st ∧ paused st1 = paused st
    ∧ memTracker_RemovePointer (S fuel) c p st = Done st2
    ∧ critsec st2 = critsec st ∧ paused st2 = paused st
    ∧ Pause c st = Done st3 ∧ critsec st3 = critsec st
    ∧ Resume c st = Done st4 ∧ critsec st4 = critsec st.
Proof.
  intros He.
  exists (added c p size st), (removed c p st), (set_paused true st), (set_paused false st).
  split; [by apply AddPointer_enterable|].
  split; [apply added_critsec|]. split; [apply added_paused|].
  split; [by apply RemovePointer_enterable|].
  split; [apply removed_critsec|]. split; [apply removed_paused|].
  split; [by apply Pause_enterable|]. split; [reflexivity|].
  split; [by apply Resume_enterable|]. reflexivity.
Qed.

Lemma methods_release_what_they_take_witness :
  @enterable demo site_a nested_lock
  ∧ ∃ st1 st2 st3 st4,
      @memTracker_AddPointer demo 1 site_a 500%N 8%N nested_lock = Done st1
      ∧ @critsec demo st1 = @critsec demo nested_lock
      ∧ @paused demo st1 = @paused demo nested_lock
      ∧ @memTracker_RemovePointer demo 1 site_a 500%N nested_lock = Done st2
      ∧ @critsec demo st2 = @critsec demo nested_lock
      ∧ @paused demo st2 = @paused demo nested_lock
      ∧ @Pause demo site_a nested_lock = Done st3
      ∧ @critsec demo st3 = @critsec demo nested_lock
      ∧ @Resume demo site_a nested_lock = Done st4
      ∧ @critsec demo st4 = @critsec demo nested_lock.
Proof.
  assert (@enterable demo site_a nested_lock) as He.
  { right. split; [reflexivity|discriminate]. }
  split; [exact He|].
  exact (@methods_release_what_they_take demo 0 site_a 500%N 8%N nested_lock He).
Defined.

(** ** The lifetime of [memTracker] *)

(** X3.  Construction ends with an empty registry, tracking active, the
    critical section free and nothing printed, whatever storage the
    container took for itself on the way: [paused] is initialised to [true]
    ahead of [memTrackerPool], so those allocations are not recorded. *)
Theorem construction_records_nothing `{Platform}
    (fuel : nat) (c : Caller) (pool_storage : list StorageOp) (h : Heap) :
  MemTracker_construct (S fuel) c pool_storage h
  = Done (boot (storage_heap pool_storage h)).
Proof.
  unfold MemTracker_construct. cbv zeta.
  rewrite container_storage_paused; [reflexivity|by left|reflexivity].
Qed.

Section ReportShape.
Context `{Platform}.

Lemma leak_text_head (size : N) : ∃ rest, leak_text size = String "L" rest.
Proof. eexists. reflexivity. Qed.

Lemma total_text_head (total : N) : ∃ rest, total_text total = String (ascii_of_N 9) rest.
Proof. eexists. reflexivity. Qed.

Lemma leak_text_is_leak_line (size : N) : is_leak_line (leak_text size) = true.
Proof.
  unfold is_leak_line, leak_text, sntprintf_s.
  change 1023 with (6 + 1017). generalize 1017. intros n.
  generalize (fmt_zu size +:+ " bytes" +:+ LF). intros rest.
  change (String.prefix "" (substring 0 n rest) = true).
  by destruct (substring 0 n rest).
Qed.

Lemma frame_text_no_leak_line (a : ptr) : is_leak_line (frame_text a) = false.
Proof. destruct (frame_text_head a) as [rest ->]. reflexivity. Qed.

Lemma total_text_no_leak_line (total : N) : is_leak_line (total_text total) = false.
Proof. destruct (total_text_head total) as [rest ->]. reflexivity. Qed.

Lemma stack_lines_no_leak_line (s : StackTracker.t) :
  List.filter is_leak_line (stack_lines s) = [].
Proof.
  unfold stack_lines. rewrite List.filter_app. cbn [List.filter].
  change (is_leak_line LF) with false. cbn iota. rewrite app_nil_r.
  induction (captured_frames s) as [|a l IH]; [done|].
  cbn [map List.filter]. by rewrite frame_text_no_leak_line.
Qed.

Lemma blocks_leak_lines (entries : list (ptr * AllocationInfo.t)) :
  length (List.filter is_leak_line
            (concat (map (λ entry, leak_block (snd entry)) entries)))
  = length entries.
Proof.
  induction entries as [|entry entries IH]; [done|].
  cbn [map concat]. rewrite List.filter_app, length_app, IH.
  unfold leak_block. cbn [List.filter]. rewrite leak_text_is_leak_line.
  cbn [length]. by rewrite stack_lines_no_leak_line.
Qed.

Lemma message_not_in_blocks (entries : list (ptr * AllocationInfo.t)) :
  untracked_free_message ∉ concat (map (λ entry, leak_block (snd entry)) entries).
Proof.
  induction entries as [|entry entries IH]; cbn [map concat].
  - apply not_elem_of_nil.
  - rewrite elem_of_app. intros [Hb|Hr]; [|by apply IH].
    unfold leak_block in Hb. apply elem_of_cons in Hb as [Hl|Hs].
    + destruct (leak_text_head (AllocationInfo.size entry.2)) as [rest Hr].
      rewrite Hr in Hl. discriminate Hl.
    + by apply message_not_in_stack_lines in Hs.
Qed.

Lemma message_not_in_dtor_text (pool : gmap N AllocationInfo.t) :
  untracked_free_message ∉ dtor_text pool.
Proof.
  unfold dtor_text. destruct (decide (pool = ∅)).
  - intros Hb. apply list_elem_of_singleton in Hb. discriminate Hb.
  - rewrite !elem_of_app. intros [Hh|[Hb|Ht]].
    + apply list_elem_of_singleton in Hh. discriminate Hh.
    + by apply message_not_in_blocks in Hb.
    + apply list_elem_of_singleton in Ht.
      destruct (total_text_head (size_t_wrap (leaked_bytes pool))) as [rest Hr].
      rewrite Hr in Ht. discriminate Ht.
Qed.

Lemma MemTracker_dtor_frame (st : Process) :
  critsec (MemTracker_dtor st) = critsec st
  ∧ paused (MemTracker_dtor st) = true
  ∧ memTrackerPool (MemTracker_dtor st) = memTrackerPool st
  ∧ heap (MemTracker_dtor st) = heap st.
Proof.
  unfold MemTracker_dtor. cbv zeta.
  change (memTrackerPool (set_paused true st)) with (memTrackerPool st).
  destruct (negb (size (memTrackerPool st) =? 0)); [|done].
  set (body := λ '(st, totalLeaked) (entry : ptr * AllocationInfo.t),
         (DumpToDebugOutput (AllocationInfo.stack entry.2)
            (OutputDebugString (leak_text (AllocationInfo.size entry.2)) st),
          size_t_wrap (totalLeaked + AllocationInfo.size entry.2))).
  assert (∀ entries acc,
            memTracker (fst (foldl body acc entries)) = memTracker (fst acc)
            ∧ heap (fst (foldl body acc entries)) = heap (fst acc)) as Hloop.
  { induction entries as [|entry entries IH]; intros [s t]; [done|].
    cbn [foldl]. destruct (IH (body (s, t) entry)) as [-> ->].
    unfold body. cbn [fst]. by rewrite DumpToDebugOutput_eq. }
  destruct (Hloop (iteration (memTrackerPool st))
              (OutputDebugString memleaks_header (set_paused true st), 0%N)) as [Hm Hh].
  change (foldl _ _ (iteration (memTrackerPool st)))
    with (foldl body (OutputDebugString memleaks_header (set_paused true st), 0%N)
            (iteration (memTrackerPool st))).
  destruct (foldl body _ _) as [st' total]. cbn [fst] in Hm, Hh.
  unfold critsec, paused, memTrackerPool. cbn [memTracker heap OutputDebugString].
  rewrite Hm, Hh. done.
Qed.

End ReportShape.

(** X4.  At its end [memTracker] prints the report of its registry and
    nothing else: the storage the container hands back to [operator delete]
    while it is destroyed raises no untracked-free error, because the
    destructor has set [paused] first.  The call completes, the registry is
    gone and the critical section is as it was. *)
Theorem destruction_reports_and_stays_silent `{Platform}
    (fuel : nat) (c : Caller) (pool_storage : list StorageOp) (st : Process) :
  idle st →
  ∃ st',
    MemTracker_destroy (S fuel) c pool_storage st = Done st'
    ∧ debug_output st' = debug_output st ++ dtor_text (memTrackerPool st)
    ∧ (untracked_free_message ∉ dtor_text (memTrackerPool st))
    ∧ memTrackerPool st' = ∅
    ∧ heap st' = storage_heap pool_storage (heap st)
    ∧ critsec st' = critsec st.
Proof.
  intros Hi. destruct (MemTracker_dtor_frame st) as (Hc & Hp & Hpool & Hh).
  unfold MemTracker_destroy. cbv zeta.
  rewrite container_storage_paused; [|left; by rewrite Hc|exact Hp].
  rewrite bind_Done. eexists. split; [reflexivity|].
  split; [apply MemTracker_dtor_output|].
  split; [apply message_not_in_dtor_text|].
  split; [reflexivity|]. split; [cbn; by rewrite Hh|exact Hc].
Qed.

Lemma destruction_reports_and_stays_silent_witness :
  ∃ st',
    @MemTracker_destroy demo 1 site_a [Release 4160%N; Release 7%N] one_leak = Done st'
    ∧ @debug_output demo st'
      = @debug_output demo one_leak ++ @dtor_text demo (@memTrackerPool demo one_leak)
    ∧ (untracked_free_message ∉ @dtor_text demo (@memTrackerPool demo one_leak))
    ∧ @memTrackerPool demo st' = ∅
    ∧ @heap demo st' = @storage_heap demo [Release 4160%N; Release 7%N] (@heap demo one_leak)
    ∧ @critsec demo st' = @critsec demo one_leak.
Proof.
  exact (@destruction_reports_and_stays_silent demo 0 site_a
           [Release 4160%N; Release 7%N] one_leak eq_refl).
Defined.

(** X5.  The body of the destructor only reports: it leaves the registry,
    the heap and the critical section as they are and sets [paused]; and the
    total it prints is the sum of the recorded sizes as [size_t] holds it,
    that is, modulo [2^64], whatever the sizes. *)
Theorem destructor_only_reports `{Platform} (st : Process) :
  debug_output (MemTracker_dtor st) = debug_output st ++ dtor_text (memTrackerPool st)
  ∧ memTrackerPool (MemTracker_dtor st) = memTrackerPool st
  ∧ heap (MemTracker_dtor st) = heap st
  ∧ critsec (MemTracker_dtor st) = critsec st
  ∧ paused (MemTracker_dtor st) = true.
Proof.
  destruct (MemTracker_dtor_frame st) as (Hc & Hp & Hpool & Hh).
  split; [apply MemTracker_dtor_output|]. done.
Qed.

(** X6.  The report holds exactly as many lines starting with [Leak: ] as
    the registry holds records, none when the registry is empty. *)
Theorem one_leak_line_per_record `{Platform} (st : Process) :
  length (List.filter is_leak_line
            (drop (length (debug_output st)) (debug_output (MemTracker_dtor st))))
  = size (memTrackerPool st).
Proof.
  rewrite MemTracker_dtor_output, drop_app_length.
  destruct (decide (memTrackerPool st = ∅)) as [He|Hne].
  - rewrite He, map_size_empty. reflexivity.
  - rewrite !List.filter_app, !length_app, blocks_leak_lines.
    cbn [List.filter]. rewrite total_text_no_leak_line.
    change (is_leak_line memleaks_header) with false. cbn [length].
    rewrite (Permutation_length (iteration_perm _)), length_map_to_list. lia.
Qed.

(** ** The text *)

Lemma sntprintf_s_length (count : nat) (text : string) :
  String.length (sntprintf_s count text) = Nat.min count (String.length text).
Proof.
  unfold sntprintf_s. revert count.
  induction text as [|ch text IH]; intros [|count]; cbn; try done.
  by rewrite IH.
Qed.



(** ** The stack *)

Lemma map_nth_seq {A : Type} (d : A) (l : list A) :
  map (λ x, nth x l d) (seq 0 (length l)) = l.
Proof.
  induction l as [|a l IH]; [done|].
  cbn [length seq map nth]. f_equal.
  rewrite <- seq_shift, map_map. exact IH.
Qed.

Lemma filter_replicate_NULL (n : nat) :
  filter (λ a : N, a ≠ NULL) (replicate n NULL) = [].
Proof.
  induction n as [|n IH]; [done|].
  cbn [replicate]. rewrite filter_cons, decide_False by (intros Hc; by apply Hc).
  exact IH.
Qed.

Lemma StackTracker_ctor_length (c : Caller) :
  length (StackTracker.stack (StackTracker_ctor c)) = STACK_TRACE_DEPTH.
Proof.
  unfold StackTracker_ctor, RtlCaptureStackBackTrace. cbn [StackTracker.stack].
  rewrite length_app, length_drop, length_replicate, length_take. lia.
Qed.

Lemma StackTracker_ctor_frames (c : Caller) :
  captured_frames (StackTracker_ctor c)
  = filter (λ a, a ≠ NULL) (take STACK_TRACE_DEPTH (drop STACK_OFFSET (frames c))).
Proof.
  unfold captured_frames.
  rewrite <- (StackTracker_ctor_length c) at 1. rewrite map_nth_seq.
  unfold StackTracker_ctor, RtlCaptureStackBackTrace. cbn [StackTracker.stack].
  rewrite filter_app, drop_replicate, filter_replicate_NULL. by rewrite app_nil_r.
Qed.

(** X8.  A [StackTracker] always holds [STACK_TRACE_DEPTH] entries; the
    frames it has captured are the non-null return addresses among the
    [STACK_TRACE_DEPTH] that follow the first [STACK_OFFSET] of the caller,
    the unused entries staying zero; so at most [STACK_TRACE_DEPTH] frames
    are ever listed, and a caller no deeper than [STACK_OFFSET] gets a dump
    that is an empty line. *)
Theorem stack_capture_bounds `{Platform} (c : Caller) :
  length (StackTracker.stack (StackTracker_ctor c)) = STACK_TRACE_DEPTH
  ∧ captured_frames (StackTracker_ctor c)
    = filter (λ a, a ≠ NULL) (take STACK_TRACE_DEPTH (drop STACK_OFFSET (frames c)))
  ∧ length (captured_frames (StackTracker_ctor c)) ≤ STACK_TRACE_DEPTH
  ∧ stack_lines (StackTracker_ctor {| thread := thread c;
                                      frames := take STACK_OFFSET (frames c) |})
    = [LF].
Proof.
  split; [apply StackTracker_ctor_length|]. split; [apply StackTracker_ctor_frames|].
  split.
  - rewrite StackTracker_ctor_frames.
    etransitivity; [apply length_filter|]. rewrite length_take. lia.
  - unfold stack_lines. rewrite StackTracker_ctor_frames. cbn [frames].
    rewrite drop_ge by (rewrite length_take; lia). reflexivity.
Qed.

(** X9.  A stack dump changes nothing but the debug output and the flag of
    the symbol engine, which it leaves set.  It prints one line for each
    entry of the array that is not null, null entries in between being
    skipped and not ending the dump, then an empty line: between one and
    [STACK_TRACE_DEPTH + 1] pieces of text, none longer than the buffer. *)
Theorem stack_dump_shape `{Platform} (s : StackTracker.t) (st : Process) :
  memTracker (DumpToDebugOutput s st) = memTracker st
  ∧ heap (DumpToDebugOutput s st) = heap st
  ∧ dbgInitialized (DumpToDebugOutput s st) = true
  ∧ debug_output (DumpToDebugOutput s st)
    = debug_output st ++ map frame_text (captured_frames s) ++ [LF]
  ∧ length (captured_frames s) ≤ STACK_TRACE_DEPTH
  ∧ Forall (λ a, a ≠ NULL ∧ ∃ x, x < STACK_TRACE_DEPTH ∧ nth x (StackTracker.stack s) NULL = a)
           (captured_frames s)
  ∧ Forall (λ text, String.length text ≤ 1023) (map frame_text (captured_frames s) ++ [LF]).
Proof.
  split; [apply DumpToDebugOutput_memTracker|].
  split; [apply DumpToDebugOutput_heap|].
  split; [apply DumpToDebugOutput_dbgInitialized|].
  split; [apply DumpToDebugOutput_output|].
  split; [|split].
  - unfold captured_frames. etransitivity; [apply length_filter|].
    by rewrite length_map, length_seq.
  - apply Forall_forall. intros a Ha. unfold captured_frames in Ha.
    apply list_elem_of_filter in Ha as [Hne Ha]. split; [exact Hne|].
    apply list_elem_of_fmap in Ha as (x & -> & Hx). exists x. split; [|done].
    apply list_elem_of_In, in_seq in Hx. lia.
  - apply Forall_app. split.
    + apply Forall_forall. intros text Ht.
      apply list_elem_of_fmap in Ht as (a & -> & _).
      unfold frame_text. destruct (SymGetLineFromAddr a) as [[file line]|];
        rewrite sntprintf_s_length; lia.
    + apply Forall_singleton. cbn. lia.
Qed.

(** ** Single calls and pairs of calls *)

Section Pairs.
Context `{Platform}.

Lemma memTracker_eq (st st' : Process) :
  critsec st = critsec st' →
  paused st = paused st' →
  memTrackerPool st = memTrackerPool st' →
  memTracker st = memTracker st'.
Proof.
  unfold critsec, paused, memTrackerPool.
  destruct (memTracker st), (memTracker st'). cbn. by intros -> -> ->.
Qed.

Lemma tracking_true (p : ptr) (st : Process) :
  paused st = false → p ≠ NULL → tracking p st = true.
Proof.
  intros Hp Hn. rewrite tracking_active by exact Hp.
  by destruct (N.eqb_spec p NULL).
Qed.

Lemma tracking_NULL (st : Process) : tracking NULL st = false.
Proof. unfold tracking. by rewrite andb_false_r. Qed.

Lemma leaked_bytes_delete (pool : gmap N AllocationInfo.t) (p : ptr) :
  (leaked_bytes (delete p pool) + recorded_size pool p = leaked_bytes pool)%N.
Proof.
  unfold recorded_size. destruct (pool !! p) as [old|] eqn:Hl.
  - unfold leaked_bytes at 2.
    rewrite (map_fold_delete_L _ _ p old pool); [|intros; lia|exact Hl].
    fold (leaked_bytes (delete p pool)). lia.
  - rewrite delete_id by exact Hl. lia.
Qed.

Lemma leaked_bytes_insert (pool : gmap N AllocationInfo.t) (p : ptr)
    (info : AllocationInfo.t) :
  (leaked_bytes (<[p := info]> pool) + recorded_size pool p
   = leaked_bytes pool + AllocationInfo.size info)%N.
Proof.
  rewrite <- (insert_delete_eq pool). unfold leaked_bytes at 1.
  rewrite map_fold_insert_L; [|intros; lia|apply lookup_delete_eq].
  fold (leaked_bytes (delete p pool)).
  pose proof (leaked_bytes_delete pool p). lia.
Qed.

End Pairs.

(** X10.  Deleting the null pointer, in any of the four forms and whether
    tracking is active or not, prints nothing and leaves the tracker alone:
    the only thing it does is hand the null pointer to [free]. *)
Theorem deleting_null_is_silent `{Platform}
    (fuel : nat) (form : Form) (c : Caller) (st : Process) :
  idle st →
  call_delete (S (S fuel)) form c NULL st = Done (set_heap (free NULL (heap st)) st).
Proof.
  intros Hi. rewrite call_delete_operator_delete, operator_delete_idle by exact Hi.
  unfold removed. by rewrite tracking_NULL.
Qed.

Lemma deleting_null_is_silent_witness :
  @call_delete demo 2 (ScalarAt "main.cpp" 3) site_c NULL one_leak
  = Done (@set_heap demo (@free demo NULL (@heap demo one_leak)) one_leak).
Proof.
  exact (@deleting_null_is_silent demo 0 (ScalarAt "main.cpp" 3) site_c one_leak eq_refl).
Defined.

(** X11.  With tracking active, an allocation that returns a non-null
    address the registry does not hold, followed by the deallocation of that
    address, in any forms and from any callers, leaves the tracker (registry,
    flag, lock) exactly as it was and prints nothing. *)
Theorem new_then_delete_restores `{Platform}
    (fuel : nat) (form form' : Form) (c c' : Caller) (size : N) (st : Process) :
  idle st →
  paused st = false →
  fst (malloc size (heap st)) ≠ NULL →
  memTrackerPool st !! fst (malloc size (heap st)) = None →
  ∃ st',
    run (S (S fuel))
        [CallNew form c size; CallDelete form' c' (fst (malloc size (heap st)))] st
    = Done (st', [Returned (fst (malloc size (heap st)));
                  Passed (fst (malloc size (heap st)))])
    ∧ memTracker st' = memTracker st
    ∧ debug_output st' = debug_output st.
Proof.
  intros Hi Hp Hn Hl. rewrite run_idle by exact Hi.
  set (p := fst (malloc size (heap st))) in *.
  eexists. split; [reflexivity|]. cbn [steps step fst snd].
  fold p. set (st0 := set_heap (snd (malloc size (heap st))) st).
  assert (tracking p st0 = true) as Ht by (by apply tracking_true).
  assert (memTrackerPool (added c p size st0)
          = <[p := AllocationInfo_ctor c size]> (memTrackerPool st)) as Hpool.
  { by rewrite added_pool, Ht. }
  assert (tracking p (added c p size st0) = true) as Ht'.
  { apply tracking_true; [|exact Hn]. by rewrite added_paused. }
  split.
  - change (memTracker (set_heap ?h ?x)) with (memTracker x).
    apply memTracker_eq.
    + by rewrite removed_critsec, added_critsec.
    + by rewrite removed_paused, added_paused.
    + rewrite removed_pool, Ht', Hpool. by apply delete_insert_id.
  - change (debug_output (set_heap ?h ?x)) with (debug_output x).
    rewrite removed_output, Ht', Hpool, lookup_insert_eq, app_nil_r.
    by rewrite added_output.
Qed.

Lemma new_then_delete_restores_witness :
  ∃ st',
    @run demo 2 [CallNew Array site_b 24%N;
                 CallDelete (ScalarAt "main.cpp" 8) site_c 4208%N] one_leak
    = Done (st', [Returned 4208%N; Passed 4208%N])
    ∧ @memTracker demo st' = @memTracker demo one_leak
    ∧ @debug_output demo st' = @debug_output demo one_leak.
Proof.
  apply (@new_then_delete_restores demo 0 Array (ScalarAt "main.cpp" 8) site_b site_c
           24%N one_leak).
  - reflexivity.
  - reflexivity.
  - discriminate.
  - vm_compute. reflexivity.
Defined.

(** X12.  With tracking active, when a recorded address is deleted twice in
    a row, the first deletion removes the record in silence and the second
    one is the one diagnosed, with the stack of its own caller. *)
Theorem second_delete_is_diagnosed `{Platform}
    (fuel : nat) (form form' : Form) (c c' : Caller) (p : ptr) (st : Process) :
  idle st →
  paused st = false →
  p ≠ NULL →
  is_Some (memTrackerPool st !! p) →
  ∃ st',
    run (S (S fuel)) [CallDelete form c p; CallDelete form' c' p] st
    = Done (st', [Passed p; Passed p])
    ∧ debug_output st' = debug_output st ++ diagnostic c'
    ∧ memTrackerPool st' = delete p (memTrackerPool st).
Proof.
  intros Hi Hp Hn [old Hl]. rewrite run_idle by exact Hi.
  eexists. split; [reflexivity|]. cbn [steps step fst snd].
  assert (tracking p st = true) as Ht by (by apply tracking_true).
  set (st1 := set_heap (free p (heap (removed c p st))) (removed c p st)).
  assert (memTrackerPool st1 = delete p (memTrackerPool st)) as Hpool.
  { unfold st1. change (memTrackerPool (set_heap ?h ?x)) with (memTrackerPool x).
    by rewrite removed_pool, Ht. }
  assert (debug_output st1 = debug_output st) as Hout.
  { unfold st1. change (debug_output (set_heap ?h ?x)) with (debug_output x).
    by rewrite removed_output, Ht, Hl, app_nil_r. }
  assert (tracking p st1 = true) as Ht1.
  { apply tracking_true; [|exact Hn]. unfold st1.
    change (paused (set_heap ?h ?x)) with (paused x). by rewrite removed_paused. }
  split.
  - change (debug_output (set_heap ?h ?x)) with (debug_output x).
    by rewrite removed_output, Ht1, Hpool, lookup_delete_eq, Hout.
  - change (memTrackerPool (set_heap ?h ?x)) with (memTrackerPool x).
    rewrite removed_pool, Ht1, Hpool. apply delete_id, lookup_delete_eq.
Qed.

Lemma second_delete_is_diagnosed_witness :
  ∃ st',
    @run demo 2 [CallDelete Scalar site_a 4096%N; CallDelete Array site_c 4096%N] one_leak
    = Done (st', [Passed 4096%N; Passed 4096%N])
    ∧ @debug_output demo st' = @debug_output demo one_leak ++ @diagnostic demo site_c
    ∧ @memTrackerPool demo st' = delete 4096%N (@memTrackerPool demo one_leak).
Proof.
  apply (@second_delete_is_diagnosed demo 0 Scalar Array site_a site_c 4096%N one_leak).
  - reflexivity.
  - reflexivity.
  - discriminate.
  - vm_compute. by eexists.
Defined.

(** X13.  With tracking active the registry keeps the account of the bytes
    outstanding: an allocation that returns a non-null address adds its size
    to the sum of the recorded sizes and takes off what was recorded for that
    address, if anything; a deallocation of a non-null address takes off what
    was recorded for it, nothing when it is unknown. *)
Theorem outstanding_bytes_account `{Platform}
    (fuel : nat) (form form' : Form) (c c' : Caller) (size : N) (pointer : ptr)
    (st : Process) :
  idle st →
  paused st = false →
  fst (malloc size (heap st)) ≠ NULL →
  pointer ≠ NULL →
  (∃ st',
     call_new (S (S fuel)) form c size st = Done (fst (malloc size (heap st)), st')
     ∧ (leaked_bytes (memTrackerPool st')
        + recorded_size (memTrackerPool st) (fst (malloc size (heap st)))
        = leaked_bytes (memTrackerPool st) + size)%N)
  ∧ (∃ st',
       call_delete (S (S fuel)) form' c' pointer st = Done st'
       ∧ (leaked_bytes (memTrackerPool st') + recorded_size (memTrackerPool st) pointer
          = leaked_bytes (memTrackerPool st))%N).
Proof.
  intros Hi Hp Hn Hn'. split.
  - rewrite call_new_operator_new, operator_new_idle by exact Hi.
    eexists. split; [reflexivity|].
    rewrite added_pool.
    change (tracking ?q (set_heap ?h st)) with (tracking q st).
    change (memTrackerPool (set_heap ?h st)) with (memTrackerPool st).
    rewrite tracking_true by done. apply leaked_bytes_insert.
  - rewrite call_delete_operator_delete, operator_delete_idle by exact Hi.
    eexists. split; [reflexivity|].
    change (memTrackerPool (set_heap ?h ?x)) with (memTrackerPool x).
    rewrite removed_pool, tracking_true by done. apply leaked_bytes_delete.
Qed.

Lemma outstanding_bytes_account_witness :
  (∃ st',
     @call_new demo 2 Scalar site_b 24%N one_leak = Done (4208%N, st')
     ∧ (leaked_bytes (@memTrackerPool demo st')
        + recorded_size (@memTrackerPool demo one_leak) 4208 = 64 + 24)%N)
  ∧ (∃ st',
       @call_delete demo 2 Array site_c 4096%N one_leak = Done st'
       ∧ (leaked_bytes (@memTrackerPool demo st') + 64 = 64)%N).
Proof.
  exact (@outstanding_bytes_account demo 0 Scalar Array site_b site_c 24%N 4096%N one_leak
           eq_refl eq_refl ltac:(discriminate) ltac:(discriminate)).
Defined.

(** X14.  An allocation or a deallocation touches the record of its own
    address and no other; when the guard lets it through, the allocation
    leaves for its address a record with the requested size and the stack of
    its caller, and the deallocation leaves none. *)
Theorem calls_touch_one_record `{Platform}
    (fuel : nat) (form form' : Form) (c c' : Caller) (size : N) (pointer : ptr)
    (st : Process) :
  idle st →
  (∃ st',
     call_new (S (S fuel)) form c size st = Done (fst (malloc size (heap st)), st')
     ∧ (∀ q, q ≠ fst (malloc size (heap st)) →
             memTrackerPool st' !! q = memTrackerPool st !! q)
     ∧ (tracking (fst (malloc size (heap st))) st = true →
        memTrackerPool st' !! fst (malloc size (heap st))
        = Some {| AllocationInfo.size := size;
                  AllocationInfo.stack := StackTracker_ctor c |}))
  ∧ (∃ st',
       call_delete (S (S fuel)) form' c' pointer st = Done st'
       ∧ (∀ q, q ≠ pointer → memTrackerPool st' !! q = memTrackerPool st !! q)
       ∧ (tracking pointer st = true → memTrackerPool st' !! pointer = None)).
Proof.
  intros Hi. split.
  - rewrite call_new_operator_new, operator_new_idle by exact Hi.
    eexists. split; [reflexivity|].
    rewrite added_pool.
    change (tracking ?q (set_heap ?h st)) with (tracking q st).
    change (memTrackerPool (set_heap ?h st)) with (memTrackerPool st).
    split.
    + intros q Hq. destruct (tracking _ st); [|done]. by rewrite lookup_insert_ne.
    + intros ->. by rewrite lookup_insert_eq.
  - rewrite call_delete_operator_delete, operator_delete_idle by exact Hi.
    eexists. split; [reflexivity|].
    change (memTrackerPool (set_heap ?h ?x)) with (memTrackerPool x).
    rewrite removed_pool. split.
    + intros q Hq. destruct (tracking pointer st); [|done]. by rewrite lookup_delete_ne.
    + intros ->. apply lookup_delete_eq.
Qed.

Lemma calls_touch_one_record_witness :
  (∃ st',
     @call_new demo 2 Array site_b 24%N one_leak = Done (4208%N, st')
     ∧ (∀ q, q ≠ 4208%N →
             @memTrackerPool demo st' !! q = @memTrackerPool demo one_leak !! q)
     ∧ (true = true →
        @memTrackerPool demo st' !! 4208%N
        = Some {| AllocationInfo.size := 24;
                  AllocationInfo.stack := StackTracker_ctor site_b |}))
  ∧ (∃ st',
       @call_delete demo 2 Scalar site_c 4096%N one_leak = Done st'
       ∧ (∀ q, q ≠ 4096%N →
               @memTrackerPool demo st' !! q = @memTrackerPool demo one_leak !! q)
       ∧ (true = true → @memTrackerPool demo st' !! 4096%N = None)).
Proof.
  exact (@calls_touch_one_record demo 0 Array Scalar site_b site_c 24%N 4096%N one_leak
           eq_refl).
Defined.

(** ** Whole programs *)

Lemma returned_cons_returned (p : ptr) (log : list Obs) :
  returned (Returned p :: log) = {[p]} ∪ returned log.
Proof. reflexivity. Qed.

Lemma returned_cons_passed (p : ptr) (log : list Obs) :
  returned (Passed p :: log) = returned log.
Proof. reflexivity. Qed.

Section Whole.
Context `{Platform}.

Lemma steps_invariants (evs : list Event) (st : Process) (seen : gset N) :
  NULL ∉ dom (memTrackerPool st) →
  dom (memTrackerPool st) ⊆ seen →
  stacks_full (memTrackerPool st) →
  (NULL ∉ dom (memTrackerPool (fst (steps evs st))))
  ∧ dom (memTrackerPool (fst (steps evs st))) ⊆ seen ∪ returned (snd (steps evs st))
  ∧ stacks_full (memTrackerPool (fst (steps evs st))).
Proof.
  revert st seen. induction evs as [|ev evs IH]; intros st seen H0 Hsub Hfull.
  { cbn. split; [done|]. split; [set_solver|done]. }
  cbn [steps fst snd].
  destruct ev as [form c size|form c p|c|c]; cbn [step fst snd app].
  - set (p := fst (malloc size (heap st))).
    set (st1 := added c p size (set_heap (snd (malloc size (heap st))) st)).
    assert (memTrackerPool st1
            = if tracking p st
              then <[p := AllocationInfo_ctor c size]> (memTrackerPool st)
              else memTrackerPool st) as Hpool by (unfold st1; by rewrite added_pool).
    destruct (IH st1 ({[p]} ∪ seen)) as (H0' & Hsub' & Hfull').
    + rewrite Hpool. destruct (tracking p st) eqn:Ht; [|done].
      rewrite dom_insert_L. unfold tracking in Ht. apply andb_prop in Ht as [_ Ht].
      destruct (N.eqb_spec p NULL); [done|]. set_solver.
    + rewrite Hpool. destruct (tracking p st); [rewrite dom_insert_L|]; set_solver.
    + rewrite Hpool. destruct (tracking p st); [|done].
      apply map_Forall_insert_2; [|done]. apply StackTracker_ctor_length.
    + split; [done|]. split; [|done]. rewrite returned_cons_returned. set_solver.
  - set (st1 := set_heap (free p (heap (removed c p st))) (removed c p st)).
    assert (memTrackerPool st1
            = if tracking p st then delete p (memTrackerPool st) else memTrackerPool st)
      as Hpool.
    { unfold st1. change (memTrackerPool (set_heap ?h ?x)) with (memTrackerPool x).
      apply removed_pool. }
    destruct (IH st1 seen) as (H0' & Hsub' & Hfull').
    + rewrite Hpool. destruct (tracking p st); [rewrite dom_delete_L|]; set_solver.
    + rewrite Hpool. destruct (tracking p st); [rewrite dom_delete_L|]; set_solver.
    + rewrite Hpool. destruct (tracking p st); [|done]. by apply map_Forall_delete.
    + split; [done|]. split; [|done]. by rewrite returned_cons_passed.
  - by apply (IH (set_paused true st)).
  - by apply (IH (set_paused false st)).
Qed.

Lemma steps_flag (evs : list Event) (st : Process) :
  paused (fst (steps evs st)) = last_flag (paused st) evs.
Proof.
  revert st. induction evs as [|ev evs IH]; intros st; [done|].
  cbn [steps fst last_flag foldl]. fold (last_flag
    (match ev with CallPause _ => true | CallResume _ => false | _ => paused st end) evs).
  rewrite IH. f_equal.
  destruct ev as [form c size|form c p|c|c]; cbn [step fst].
  - by rewrite added_paused.
  - change (paused (set_heap ?h ?x)) with (paused x). by rewrite removed_paused.
  - reflexivity.
  - reflexivity.
Qed.

Lemma steps_proper_frees (evs : list Event) (st : Process) (alive : gset N) :
  paused st = false →
  never_paused evs = true →
  dom (memTrackerPool st) = alive ∖ {[NULL]} →
  proper_frees_from alive (snd (steps evs st)) = true →
  debug_output (fst (steps evs st)) = debug_output st.
Proof.
  revert st alive. induction evs as [|ev evs IH]; intros st alive Hp Hn Hd Hf; [done|].
  cbn [never_paused forallb] in Hn. apply andb_prop in Hn as [Hev Hn].
  cbn [steps fst snd] in *.
  destruct ev as [form c size|form c p|c|c]; [| |done|]; cbn [step fst snd app] in *.
  - set (p := fst (malloc size (heap st))) in *.
    set (st1 := added c p size (set_heap (snd (malloc size (heap st))) st)) in *.
    cbn [proper_frees_from] in Hf.
    rewrite (IH st1 ({[p]} ∪ alive)); [|by unfold st1; rewrite added_paused|exact Hn| |exact Hf].
    + unfold st1. by rewrite added_output.
    + unfold st1. rewrite added_pool.
      change (tracking p (set_heap ?h st)) with (tracking p st).
      change (memTrackerPool (set_heap ?h st)) with (memTrackerPool st).
      rewrite tracking_active by exact Hp.
      destruct (N.eqb_spec p NULL) as [Heq|Hne]; cbn [negb].
      * rewrite Hd, Heq. set_solver.
      * rewrite dom_insert_L, Hd. set_solver.
  - set (st1 := set_heap (free p (heap (removed c p st))) (removed c p st)) in *.
    cbn [proper_frees_from] in Hf. apply andb_prop in Hf as [Hok Hf].
    assert (paused st1 = false) as Hp1.
    { unfold st1. change (paused (set_heap ?h ?x)) with (paused x).
      by rewrite removed_paused. }
    assert (memTrackerPool st1
            = if negb (p =? NULL)%N then delete p (memTrackerPool st)
              else memTrackerPool st) as Hpool.
    { unfold st1. change (memTrackerPool (set_heap ?h ?x)) with (memTrackerPool x).
      by rewrite removed_pool, tracking_active. }
    rewrite (IH st1 (alive ∖ {[p]}) Hp1 Hn); [| |exact Hf].
    + unfold st1. change (debug_output (set_heap ?h ?x)) with (debug_output x).
      rewrite removed_output, tracking_active by exact Hp.
      destruct (N.eqb_spec p NULL) as [Heq|Hne]; cbn [negb]; [by rewrite app_nil_r|].
      apply orb_prop in Hok as [Hok|Hok]; apply bool_decide_eq_true in Hok; [done|].
      assert (p ∈ dom (memTrackerPool st)) as Hin by (rewrite Hd; set_solver).
      apply elem_of_dom in Hin as [old ->]. by rewrite app_nil_r.
    + rewrite Hpool. destruct (N.eqb_spec p NULL) as [Heq|Hne]; cbn [negb].
      * rewrite Hd, Heq. set_solver.
      * rewrite dom_delete_L, Hd. set_solver.
  - apply (IH (set_paused false st) alive); done.
Qed.

Lemma steps_diagnostics (evs : list Event) (st : Process) :
  ∃ callers,
    debug_output (fst (steps evs st)) = debug_output st ++ concat (map diagnostic callers)
    ∧ length callers ≤ deallocations evs.
Proof.
  revert st. induction evs as [|ev evs IH]; intros st.
  { exists []. cbn. by rewrite app_nil_r. }
  cbn [steps fst].
  destruct ev as [form c size|form c p|c|c]; cbn [step fst].
  - destruct (IH (added c (fst (malloc size (heap st))) size
                    (set_heap (snd (malloc size (heap st))) st))) as (cs & Ho & Hl).
    exists cs. rewrite Ho, added_output. done.
  - destruct (IH (set_heap (free p (heap (removed c p st))) (removed c p st)))
      as (cs & Ho & Hl).
    change (debug_output (set_heap ?h ?x)) with (debug_output x) in Ho.
    rewrite removed_output in Ho.
    unfold deallocations in *. cbn [List.filter length].
    destruct (tracking p st); [destruct (memTrackerPool st !! p)|].
    + exists cs. rewrite app_nil_r in Ho. split; [done|lia].
    + exists (c :: cs). cbn [map concat length]. rewrite Ho, <- app_assoc.
      split; [done|lia].
    + exists cs. rewrite app_nil_r in Ho. split; [done|lia].
  - destruct (IH (set_paused true st)) as (cs & Ho & Hl). by exists cs.
  - destruct (IH (set_paused false st)) as (cs & Ho & Hl). by exists cs.
Qed.

End Whole.

(** X15.  Whatever the program (allocations, deallocations, pauses and
    resumes in any order, by any threads), run from the freshly constructed
    tracker, it runs to completion and leaves the tracker in order: no
    thread inside, the null pointer not a key, every key an address that an
    allocation of the program returned, and every record with a stack of
    [STACK_TRACE_DEPTH] entries. *)
Theorem programs_keep_the_registry_in_order `{Platform}
    (fuel : nat) (evs : list Event) (h : Heap) :
  ∃ st log,
    run (S (S fuel)) evs (boot h) = Done (st, log)
    ∧ idle st
    ∧ (NULL ∉ dom (memTrackerPool st))
    ∧ dom (memTrackerPool st) ⊆ returned log
    ∧ stacks_full (memTrackerPool st).
Proof.
  rewrite run_idle by apply boot_idle.
  exists (fst (steps evs (boot h))), (snd (steps evs (boot h))).
  split; [by destruct (steps evs (boot h))|].
  split; [apply steps_idle, boot_idle|].
  destruct (steps_invariants evs (boot h) ∅) as (H0 & Hsub & Hfull).
  - cbn. set_solver.
  - cbn. set_solver.
  - apply map_Forall_empty.
  - split; [exact H0|]. split; [set_solver|exact Hfull].
Qed.

(** X16.  After a program the flag [paused] is what the last [Pause] or
    [Resume] of the program assigned, and what it was before when the program
    has neither: the suppression that [AddPointer] and [RemovePointer] switch
    on for themselves never outlasts the call. *)
Theorem flag_follows_last_pause_or_resume `{Platform}
    (fuel : nat) (evs : list Event) (st : Process) :
  idle st →
  ∃ st' log,
    run (S (S fuel)) evs st = Done (st', log)
    ∧ paused st' = last_flag (paused st) evs.
Proof.
  intros Hi. rewrite run_idle by exact Hi.
  exists (fst (steps evs st)), (snd (steps evs st)).
  split; [by destruct (steps evs st)|]. apply steps_flag.
Qed.

Lemma flag_follows_last_pause_or_resume_witness :
  ∃ st' log,
    @run demo 2 busy_program one_leak = Done (st', log)
    ∧ @paused demo st' = last_flag (@paused demo one_leak) busy_program.
Proof.
  exact (@flag_follows_last_pause_or_resume demo 0 busy_program one_leak eq_refl).
Defined.

(** X17.  No false alarm: when a program that never pauses tracking, run
    from the freshly constructed tracker, only ever deletes the null pointer
    or an address that an allocation returned and that has not been deleted
    since, nothing at all is printed. *)
Theorem proper_frees_print_nothing `{Platform}
    (fuel : nat) (evs : list Event) (h : Heap) :
  never_paused evs = true →
  proper_frees (observed (run (S (S fuel)) evs (boot h))) = true →
  ∃ st log,
    run (S (S fuel)) evs (boot h) = Done (st, log)
    ∧ debug_output st = [].
Proof.
  intros Hn Hf. rewrite run_idle in * by apply boot_idle.
  exists (fst (steps evs (boot h))), (snd (steps evs (boot h))).
  split; [by destruct (steps evs (boot h))|].
  cbn [observed] in Hf.
  rewrite (steps_proper_frees evs (boot h) ∅); [done|done|exact Hn| |exact Hf].
  cbn. set_solver.
Qed.

Lemma proper_frees_print_nothing_witness :
  never_paused paired_program = true
  ∧ proper_frees (observed (@run demo 2 paired_program (@boot demo 0%N))) = true
  ∧ ∃ st log,
      @run demo 2 paired_program (@boot demo 0%N) = Done (st, log)
      ∧ @debug_output demo st = [].
Proof.
  split; [reflexivity|]. split; [vm_compute; reflexivity|].
  apply (@proper_frees_print_nothing demo 0 paired_program 0%N).
  - reflexivity.
  - vm_compute; reflexivity.
Defined.

(** X18.  Before teardown the calls print nothing but untracked-free
    diagnostics: what a program adds to the debug output is a series of
    diagnostics, each the error line followed by the stack dump of the caller
    of a deallocation, and there are no more of them than the program has
    deallocations. *)
Theorem programs_print_only_diagnostics `{Platform}
    (fuel : nat) (evs : list Event) (st : Process) :
  idle st →
  ∃ st' log callers,
    run (S (S fuel)) evs st = Done (st', log)
    ∧ debug_output st' = debug_output st ++ concat (map diagnostic callers)
    ∧ length callers ≤ deallocations evs.
Proof.
  intros Hi. rewrite run_idle by exact Hi.
  destruct (steps_diagnostics evs st) as (cs & Ho & Hl).
  exists (fst (steps evs st)), (snd (steps evs st)), cs.
  split; [by destruct (steps evs st)|]. done.
Qed.

Lemma programs_print_only_diagnostics_witness :
  ∃ st' log callers,
    @run demo 2 busy_program one_leak = Done (st', log)
    ∧ @debug_output demo st'
      = @debug_output demo one_leak ++ concat (map (@diagnostic demo) callers)
    ∧ length callers ≤ deallocations busy_program.
Proof.
  exact (@programs_print_only_diagnostics demo 0 busy_program one_leak eq_refl).
Defined.

(** X19.  An allocation made while tracking is paused is not forgiven
    later: when its address (non-null, not in the registry) is deleted after
    [Resume], the deletion is diagnosed as an untracked free, and the
    registry ends as it began. *)
Theorem exempted_allocation_is_diagnosed `{Platform}
    (fuel : nat) (form form' : Form) (c1 c2 c3 c4 : Caller) (size : N) (st : Process) :
  idle st →
  fst (malloc size (heap st)) ≠ NULL →
  memTrackerPool st !! fst (malloc size (heap st)) = None →
  ∃ st',
    run (S (S fuel))
        [CallPause c1; CallNew form c2 size; CallResume c3;
         CallDelete form' c4 (fst (malloc size (heap st)))] st
    = Done (st', [Returned (fst (malloc size (heap st)));
                  Passed (fst (malloc size (heap st)))])
    ∧ debug_output st' = debug_output st ++ diagnostic c4
    ∧ memTrackerPool st' = memTrackerPool st.
Proof.
  intros Hi Hn Hl. rewrite run_idle by exact Hi.
  eexists. split; [reflexivity|]. cbn [steps step fst snd].
  change (heap (set_paused true st)) with (heap st).
  set (p := fst (malloc size (heap st))) in *.
  rewrite added_paused_id by reflexivity.
  set (st2 := set_paused false (set_heap (snd (malloc size (heap st))) (set_paused true st))).
  assert (tracking p st2 = true) as Ht by (by apply tracking_true).
  assert (memTrackerPool st2 = memTrackerPool st) as Hpool by reflexivity.
  change (debug_output (set_heap ?h ?x)) with (debug_output x).
  change (memTrackerPool (set_heap ?h ?x)) with (memTrackerPool x).
  rewrite removed_output, removed_pool, Ht, Hpool, Hl. split; [done|].
  by apply delete_id.
Qed.

Lemma exempted_allocation_is_diagnosed_witness :
  ∃ st',
    @run demo 2
         [CallPause site_a; CallNew Array site_b 24%N; CallResume site_a;
          CallDelete Scalar site_c 4208%N] one_leak
    = Done (st', [Returned 4208%N; Passed 4208%N])
    ∧ @debug_output demo st' = @debug_output demo one_leak ++ @diagnostic demo site_c
    ∧ @memTrackerPool demo st' = @memTrackerPool demo one_leak.
Proof.
  apply (@exempted_allocation_is_diagnosed demo 0 Array Scalar site_a site_b site_a site_c
           24%N one_leak).
  - reflexivity.
  - discriminate.
  - vm_compute. reflexivity.
Defined.

Section Allocations.
Context `{Platform}.

Lemma steps_allocations (evs : list Event) (st : Process) :
  paused st = false →
  only_allocations evs = true →
  NoDup (snd (steps evs st)) →
  Returned NULL ∉ snd (steps evs st) →
  (∀ p, Returned p ∈ snd (steps evs st) → p ∉ dom (memTrackerPool st)) →
  size (memTrackerPool (fst (steps evs st))) = size (memTrackerPool st) + length evs
  ∧ leaked_bytes (memTrackerPool (fst (steps evs st)))
    = (leaked_bytes (memTrackerPool st) + requested evs)%N
  ∧ dom (memTrackerPool (fst (steps evs st)))
    = dom (memTrackerPool st) ∪ returned (snd (steps evs st)).
Proof.
  revert st. induction evs as [|ev evs IH]; intros st Hp Hall Hnd H0 Hfresh.
  { cbn. split; [lia|]. split; [lia|set_solver]. }
  cbn [only_allocations forallb] in Hall. apply andb_prop in Hall as [Hev Hall].
  destruct ev as [form c size|form c p|c|c]; try done.
  cbn [steps step fst snd app requested foldr length] in *.
  fold (requested evs).
  set (p := fst (malloc size (heap st))) in *.
  set (st1 := added c p size (set_heap (snd (malloc size (heap st))) st)) in *.
  apply NoDup_cons in Hnd as [Hp1 Hnd].
  assert (p ≠ NULL) as Hne.
  { intros Heq. apply H0. rewrite <- Heq. apply list_elem_of_here. }
  assert (memTrackerPool st !! p = None) as Hl.
  { apply not_elem_of_dom, Hfresh, list_elem_of_here. }
  assert (memTrackerPool st1 = <[p := AllocationInfo_ctor c size]> (memTrackerPool st))
    as Hpool.
  { unfold st1. rewrite added_pool.
    change (tracking p (set_heap ?h st)) with (tracking p st).
    by rewrite tracking_true. }
  destruct (IH st1) as (Hs & Hb & Hd).
  - unfold st1. by rewrite added_paused.
  - exact Hall.
  - exact Hnd.
  - intros Hc. apply H0. by apply list_elem_of_further.
  - intros q Hq. rewrite Hpool, dom_insert_L.
    assert (q ≠ p) by (intros ->; by apply Hp1).
    assert (q ∉ dom (memTrackerPool st)) by (by apply Hfresh, list_elem_of_further).
    set_solver.
  - rewrite Hs, Hb, Hd, Hpool. clear Hs Hb Hd.
    rewrite map_size_insert_None by exact Hl.
    pose proof (leaked_bytes_insert (memTrackerPool st) p (AllocationInfo_ctor c size))
      as Hins.
    unfold recorded_size in Hins. rewrite Hl in Hins. cbn in Hins.
    rewrite dom_insert_L, returned_cons_returned.
    split; [lia|]. split; [lia|set_solver].
Qed.

End Allocations.

(** X20.  No lost update: when a program that only allocates (in any forms,
    from any threads), run from the freshly constructed tracker, is given
    pairwise distinct non-null addresses, the registry ends with one record
    per allocation, its keys the addresses returned, and the recorded sizes
    add up to the bytes requested. *)
Theorem every_allocation_is_recorded `{Platform}
    (fuel : nat) (evs : list Event) (h : Heap) :
  only_allocations evs = true →
  never_null (observed (run (S (S fuel)) evs (boot h))) = true →
  all_distinct (observed (run (S (S fuel)) evs (boot h))) = true →
  ∃ st log,
    run (S (S fuel)) evs (boot h) = Done (st, log)
    ∧ size (memTrackerPool st) = length evs
    ∧ leaked_bytes (memTrackerPool st) = requested evs
    ∧ dom (memTrackerPool st) = returned log.
Proof.
  intros Hall H0 Hnd. rewrite run_idle in * by apply boot_idle.
  exists (fst (steps evs (boot h))), (snd (steps evs (boot h))).
  split; [by destruct (steps evs (boot h))|].
  cbn [observed] in H0, Hnd.
  apply bool_decide_eq_true in H0. apply bool_decide_eq_true in Hnd.
  destruct (steps_allocations evs (boot h)) as (Hs & Hb & Hd);
    [done|exact Hall|exact Hnd|exact H0|cbn; set_solver|].
  rewrite Hs, Hb, Hd. cbn. rewrite map_size_empty.
  split; [lia|]. split; [reflexivity|set_solver].
Qed.

Lemma every_allocation_is_recorded_witness :
  only_allocations allocating_program = true
  ∧ never_null (observed (@run demo 2 allocating_program (@boot demo 0%N))) = true
  ∧ all_distinct (observed (@run demo 2 allocating_program (@boot demo 0%N))) = true
  ∧ ∃ st log,
      @run demo 2 allocating_program (@boot demo 0%N) = Done (st, log)
      ∧ size (@memTrackerPool demo st) = 4
      ∧ leaked_bytes (@memTrackerPool demo st) = 1072%N
      ∧ dom (@memTrackerPool demo st) = returned log.
Proof.
  split; [reflexivity|]. split; [vm_compute; reflexivity|].
  split; [vm_compute; reflexivity|].
  apply (@every_allocation_is_recorded demo 0 allocating_program 0%N).
  - reflexivity.
  - vm_compute; reflexivity.
  - vm_compute; reflexivity.
Defined.

(** X21.  A clean program leaves a clean log: when a program that never
    pauses tracking, run from the freshly constructed tracker, frees every
    address it was given and deletes nothing else but null pointers, the
    whole debug output of the process, teardown included, is the banner
    [No memleaks found.] *)
Theorem clean_program_prints_the_banner_only `{Platform}
    (fuel : nat) (evs : list Event) (h : Heap) :
  never_paused evs = true →
  all_matched (observed (run (S (S fuel)) evs (boot h))) = true →
  proper_frees (observed (run (S (S fuel)) evs (boot h))) = true →
  ∃ st log,
    run (S (S fuel)) evs (boot h) = Done (st, log)
    ∧ debug_output (MemTracker_dtor st) = [no_memleaks_banner].
Proof.
  intros Hn Hm Hf. rewrite run_idle in * by apply boot_idle.
  exists (fst (steps evs (boot h))), (snd (steps evs (boot h))).
  split; [by destruct (steps evs (boot h))|].
  cbn [observed] in Hm, Hf.
  assert (memTrackerPool (fst (steps evs (boot h))) = ∅) as Hpool.
  { apply dom_empty_inv_L. rewrite steps_keys_boot by exact Hn.
    apply all_matched_live in Hm. rewrite Hm. set_solver. }
  rewrite MemTracker_dtor_output, Hpool.
  rewrite (steps_proper_frees evs (boot h) ∅); [|done|exact Hn|cbn; set_solver|exact Hf].
  rewrite decide_True by done. reflexivity.
Qed.

Lemma clean_program_prints_the_banner_only_witness :
  never_paused paired_program = true
  ∧ all_matched (observed (@run demo 2 paired_program (@boot demo 0%N))) = true
  ∧ proper_frees (observed (@run demo 2 paired_program (@boot demo 0%N))) = true
  ∧ ∃ st log,
      @run demo 2 paired_program (@boot demo 0%N) = Done (st, log)
      ∧ @debug_output demo (@MemTracker_dtor demo st) = [@no_memleaks_banner].
Proof.
  split; [reflexivity|]. split; [vm_compute; reflexivity|].
  split; [vm_compute; reflexivity|].
  apply (@clean_program_prints_the_banner_only demo 0 paired_program 0%N).
  - reflexivity.
  - vm_compute; reflexivity.
  - vm_compute; reflexivity.
Defined.
